(** * Frame processor: a shallow embedding of [opencv_processor.cpp]

    The development follows [app/src/main/cpp/opencv_processor.{h,cpp}] and the
    part of [jni_bridge.cpp] that calls into it.  The processor object is a
    record, its methods are functions that return the updated object, the
    value handed back to the caller and the lines written to the Android log.
    The private helpers that run inside [processFrame]'s [try] block live in a
    small monad with three results: normal completion, a propagating
    [cv::Exception], and a memory fault (a [memcpy] that leaves a block). *)

From Stdlib Require Import ZArith List Bool Lia PrimFloat Uint63.
From Stdlib Require Import Strings.Byte.
Import ListNotations.
Local Open Scope Z_scope.

(** ** Machine arithmetic

    [int] and [jint] are 32-bit two's complement; products are reduced into
    range the way the Android ABIs do it.  A [size_t] argument receives an
    [int] by sign extension to 64 bits. *)
Module MachineInt.

Definition wrap32 (z : Z) : Z := (z + 2 ^ 31) mod 2 ^ 32 - 2 ^ 31.

Definition int_mul (a b : Z) : Z := wrap32 (a * b).
Definition int_add (a b : Z) : Z := wrap32 (a + b).
(* [/] on [int] truncates towards zero *)
Definition int_div (a b : Z) : Z := Z.quot a b.

Definition to_size_t (z : Z) : Z := z mod 2 ^ 64.

End MachineInt.
Import MachineInt.

(** ** Raw memory *)

(** [memcpy dst src n]: the block [dst] after [n] bytes of [src] were copied
    over its beginning.  [None] when either block is shorter than [n] bytes:
    the call reads or writes outside an object. *)
Definition memcpy (dst src : list byte) (n : Z) : option (list byte) :=
  if (n <=? Z.of_nat (length src)) && (n <=? Z.of_nat (length dst))
  then Some (firstn (Z.to_nat n) src ++ skipn (Z.to_nat n) dst)
  else None.

(** ** The matrix type of the imaging library *)

Inductive MatType : Type := CV_8UC1 | CV_8UC4.

Definition elemSize (t : MatType) : Z :=
  match t with CV_8UC1 => 1 | CV_8UC4 => 4 end.

(** Modelled from the spec: [cv::Mat] is declared by the imaging library, not
    by this repository.  The spec describes the five members as pixel buffers
    "sized consistently with width/height", allocated by [init] and freed by
    [release]; a matrix is its header and the bytes of its block, row-major. *)
Record Mat : Type := mkMat {
  rows : Z;
  cols : Z;
  mtype : MatType;
  data : list byte
}.

(** Modelled from the spec: the default-constructed [cv::Mat()] holds no
    block. *)
Definition Mat_empty : Mat :=
  {| rows := 0; cols := 0; mtype := CV_8UC1; data := [] |}.

(** Modelled from the spec: [cv::Mat(rows, cols, type)] asks the heap
    ([fresh]) for [rows * cols * elemSize] bytes and leaves them as it got
    them.  The constructor raises a [cv::Exception] ([None]) when a dimension
    is negative and when the heap has no block for it, the "allocation
    failure" of the spec (section 4.1). *)
Definition Mat_create (fresh : Z -> option (nat -> byte)) (r c : Z)
           (t : MatType) : option Mat :=
  if (r <? 0) || (c <? 0) then None
  else
    match fresh (r * c * elemSize t) with
    | Some junk =>
        Some {| rows := r; cols := c; mtype := t;
                data := map junk (seq 0 (Z.to_nat (r * c * elemSize t))) |}
    | None => None
    end.

(** Modelled from the spec: [Mat::release()] frees the block; releasing a
    matrix that holds none does nothing more. *)
Definition Mat_release (m : Mat) : Mat :=
  {| rows := 0; cols := 0; mtype := mtype m; data := [] |}.

Definition with_data (m : Mat) (d : list byte) : Mat :=
  {| rows := rows m; cols := cols m; mtype := mtype m; data := d |}.

Inductive ColorCode : Type :=
| COLOR_YUV2RGBA_NV21
| COLOR_RGBA2GRAY
| COLOR_GRAY2RGBA.

(** The three library routines the processor calls.  Each one computes its
    destination from its source alone (it sizes and fills the destination
    itself); [None] stands for a [cv::Exception], raised by the routine's
    argument checks before the destination is touched. *)
Class OpenCV : Type := {
  cv_cvtColor : ColorCode -> Mat -> option Mat;
  cv_GaussianBlur : Mat -> Z * Z -> float -> option Mat;
  cv_Canny : Mat -> float -> float -> Z -> option Mat
}.

(** ** The processor object *)

Record Processor : Type := mkProcessor {
  frameWidth : Z;
  frameHeight : Z;
  cannyLowThreshold : float;
  cannyHighThreshold : float;
  yuvMat : Mat;
  rgbaMat : Mat;
  grayMat : Mat;
  edgesMat : Mat;
  tempMat : Mat;
  initialized : bool
}.

(** The members a [cv::Mat&] parameter can be bound to. *)
Inductive MatRef : Type := YuvMat | RgbaMat | GrayMat | EdgesMat | TempMat.

Definition getMat (r : MatRef) (p : Processor) : Mat :=
  match r with
  | YuvMat => yuvMat p
  | RgbaMat => rgbaMat p
  | GrayMat => grayMat p
  | EdgesMat => edgesMat p
  | TempMat => tempMat p
  end.

Definition setMat (r : MatRef) (m : Mat) (p : Processor) : Processor :=
  match r with
  | YuvMat =>
      mkProcessor (frameWidth p) (frameHeight p) (cannyLowThreshold p)
        (cannyHighThreshold p) m (rgbaMat p) (grayMat p) (edgesMat p)
        (tempMat p) (initialized p)
  | RgbaMat =>
      mkProcessor (frameWidth p) (frameHeight p) (cannyLowThreshold p)
        (cannyHighThreshold p) (yuvMat p) m (grayMat p) (edgesMat p)
        (tempMat p) (initialized p)
  | GrayMat =>
      mkProcessor (frameWidth p) (frameHeight p) (cannyLowThreshold p)
        (cannyHighThreshold p) (yuvMat p) (rgbaMat p) m (edgesMat p)
        (tempMat p) (initialized p)
  | EdgesMat =>
      mkProcessor (frameWidth p) (frameHeight p) (cannyLowThreshold p)
        (cannyHighThreshold p) (yuvMat p) (rgbaMat p) (grayMat p) m
        (tempMat p) (initialized p)
  | TempMat =>
      mkProcessor (frameWidth p) (frameHeight p) (cannyLowThreshold p)
        (cannyHighThreshold p) (yuvMat p) (rgbaMat p) (grayMat p)
        (edgesMat p) m (initialized p)
  end.

(** [enum ProcessingMode]; the bridge casts any [jint] to it, so a mode is
    its integer tag. *)
Definition MODE_RAW : Z := 0.
Definition MODE_GRAYSCALE : Z := 1.
Definition MODE_CANNY : Z := 2.

(** Lines of the Android log, one constructor per [LOGI]/[LOGE] call site. *)
Inductive log_msg : Type :=
| LOGI_created
| LOGE_invalid_dimensions (width height : Z)
| LOGI_initialized (width height : Z)
| LOGE_not_initialized
| LOGE_null_pointers
| LOGE_unknown_mode (mode : Z)
| LOGE_opencv_exception
| LOGI_thresholds_updated (low high : float)
| LOGI_released
| JNI_LOGI_nativeInit (width height : Z)
| JNI_LOGE_init_failed
| JNI_LOGI_init_ok
| JNI_LOGE_no_processor
| JNI_LOGE_no_input_bytes
| JNI_LOGE_no_output_bytes
| JNI_LOGE_input_size (expected got : Z)
| JNI_LOGE_output_size (expected got : Z)
| JNI_LOGE_processing_failed.

(** What a method call leaves behind: the returned value, the object, and
    the log lines it wrote. *)
Record Ret (A : Type) : Type := mkRet {
  retval : A;
  self : Processor;
  logged : list log_msg
}.
Arguments mkRet {A} _ _ _.
Arguments retval {A} _.
Arguments self {A} _.
Arguments logged {A} _.

(** How a call of a method without a [try] block ended: it returned a value,
    or a [cv::Exception] left it. *)
Inductive Completion (A : Type) : Type :=
| Returned (a : A)
| Raised.
Arguments Returned {A} _.
Arguments Raised {A}.

(** What the heap answers when a member matrix of a processor asks for a
    block of so many bytes: no block ([None]), or a block with the bytes the
    memory happened to hold.  The answer may depend on the processor the
    request is made for, whose freed blocks the heap may hand out again. *)
Definition Allocator : Type :=
  Processor -> MatRef -> Z -> option (nat -> byte).

(** Whether the heap has a block for each of the five matrices that
    [init (width, height)] constructs. *)
Definition granted (junk : Allocator) (p : Processor) (width height : Z)
  : bool :=
  let asked (m : MatRef) (r c : Z) (t : MatType) :=
    match junk p m (r * c * elemSize t) with
    | Some _ => true
    | None => false
    end in
  asked YuvMat (int_add height (int_div height 2)) width CV_8UC1
  && asked RgbaMat height width CV_8UC4
  && asked GrayMat height width CV_8UC1
  && asked EdgesMat height width CV_8UC1
  && asked TempMat height width CV_8UC4.

(** What a [processFrame] call leaves behind.  [outputRgba] is the block the
    caller's pointer designates ([None] for a null pointer). *)
Inductive Outcome : Type :=
| Returns (b : bool) (p : Processor) (outputRgba : option (list byte))
          (l : list log_msg)
| Undefined.

(** ** The monad of the private helpers *)

Inductive Res (A : Type) : Type :=
| Val (a : A) (p : Processor)
| Throw (p : Processor)
| Fault.
Arguments Val {A} _ _.
Arguments Throw {A} _.
Arguments Fault {A}.

Definition M (A : Type) : Type := Processor -> Res A.

Definition ret {A} (a : A) : M A := fun p => Val a p.

Definition bind {A B} (c : M A) (k : A -> M B) : M B :=
  fun p =>
    match c p with
    | Val a p' => k a p'
    | Throw p' => Throw p'
    | Fault => Fault
    end.

Notation "x <- c1 ;; c2" := (bind c1 (fun x => c2))
  (at level 61, c1 at next level, right associativity).
Notation "c1 ;; c2" := (bind c1 (fun _ => c2))
  (at level 61, right associativity).

(** [memcpy(dst.data, src, n)] *)
Definition memcpy_to_mat (dst : MatRef) (src : list byte) (n : Z) : M unit :=
  fun p =>
    match memcpy (data (getMat dst p)) src n with
    | Some d => Val tt (setMat dst (with_data (getMat dst p) d) p)
    | None => Fault
    end.

(** [memcpy(dst, src.data, n)], the new contents of [dst] *)
Definition memcpy_from_mat (dst : list byte) (src : MatRef) (n : Z)
  : M (list byte) :=
  fun p =>
    match memcpy dst (data (getMat src p)) n with
    | Some d => Val d p
    | None => Fault
    end.

Section Processor.

Context {cv : OpenCV}.
(** The heap the matrices of [init] are allocated from. *)
Variable junk : Allocator.

Definition cvtColor (src dst : MatRef) (code : ColorCode) : M unit :=
  fun p =>
    match cv_cvtColor code (getMat src p) with
    | Some m => Val tt (setMat dst m p)
    | None => Throw p
    end.

Definition GaussianBlur (src dst : MatRef) (ksize : Z * Z) (sigmaX : float)
  : M unit :=
  fun p =>
    match cv_GaussianBlur (getMat src p) ksize sigmaX with
    | Some m => Val tt (setMat dst m p)
    | None => Throw p
    end.

Definition Canny (image edges : MatRef) (threshold1 threshold2 : float)
           (apertureSize : Z) : M unit :=
  fun p =>
    match cv_Canny (getMat image p) threshold1 threshold2 apertureSize with
    | Some m => Val tt (setMat edges m p)
    | None => Throw p
    end.

(** [OpenCVProcessor::OpenCVProcessor()] *)
Definition OpenCVProcessor : Ret unit :=
  mkRet tt
    {| frameWidth := 0;
       frameHeight := 0;
       cannyLowThreshold := 50%float;
       cannyHighThreshold := 150%float;
       yuvMat := Mat_empty;
       rgbaMat := Mat_empty;
       grayMat := Mat_empty;
       edgesMat := Mat_empty;
       tempMat := Mat_empty;
       initialized := false |}
    [LOGI_created].

(** [OpenCVProcessor::init].  The two dimensions are stored first; the five
    matrices are then constructed and assigned one after the other, and a
    constructor that raises ends the method there, with what was assigned so
    far: [init] has no [try] block. *)
Definition init (p : Processor) (width height : Z) : Ret (Completion bool) :=
  if (width <=? 0) || (height <=? 0) then
    mkRet (Returned false) p [LOGE_invalid_dimensions width height]
  else
    let p0 :=
      mkProcessor width height (cannyLowThreshold p) (cannyHighThreshold p)
        (yuvMat p) (rgbaMat p) (grayMat p) (edgesMat p) (tempMat p)
        (initialized p) in
    match Mat_create (junk p YuvMat)
            (int_add height (int_div height 2)) width CV_8UC1 with
    | None => mkRet Raised p0 []
    | Some yuv =>
    match Mat_create (junk p RgbaMat) height width CV_8UC4 with
    | None => mkRet Raised (setMat YuvMat yuv p0) []
    | Some rgba =>
    match Mat_create (junk p GrayMat) height width CV_8UC1 with
    | None => mkRet Raised (setMat RgbaMat rgba (setMat YuvMat yuv p0)) []
    | Some gray =>
    match Mat_create (junk p EdgesMat) height width CV_8UC1 with
    | None =>
        mkRet Raised
          (setMat GrayMat gray (setMat RgbaMat rgba (setMat YuvMat yuv p0)))
          []
    | Some edges =>
    match Mat_create (junk p TempMat) height width CV_8UC4 with
    | None =>
        mkRet Raised
          (setMat EdgesMat edges
             (setMat GrayMat gray
                (setMat RgbaMat rgba (setMat YuvMat yuv p0))))
          []
    | Some temp =>
        mkRet (Returned true)
          {| frameWidth := width;
             frameHeight := height;
             cannyLowThreshold := cannyLowThreshold p;
             cannyHighThreshold := cannyHighThreshold p;
             yuvMat := yuv;
             rgbaMat := rgba;
             grayMat := gray;
             edgesMat := edges;
             tempMat := temp;
             initialized := true |}
          [LOGI_initialized width height]
    end end end end end.

(** [frameWidth * frameHeight * 3 / 2] as [memcpy] receives it *)
Definition yuvBytes (p : Processor) : Z :=
  to_size_t (int_div (int_mul (int_mul (frameWidth p) (frameHeight p)) 3) 2).

(** [frameWidth * frameHeight * 4] as [memcpy] receives it *)
Definition rgbaBytes (p : Processor) : Z :=
  to_size_t (int_mul (int_mul (frameWidth p) (frameHeight p)) 4).

(** [OpenCVProcessor::yuvToRgba] *)
Definition yuvToRgba (yuvData : list byte) (output : MatRef) : M unit :=
  (fun p => memcpy_to_mat YuvMat yuvData (yuvBytes p) p) ;;
  cvtColor YuvMat output COLOR_YUV2RGBA_NV21.

(** [OpenCVProcessor::applyGrayscale] *)
Definition applyGrayscale (input output : MatRef) : M unit :=
  cvtColor input GrayMat COLOR_RGBA2GRAY ;;
  cvtColor GrayMat output COLOR_GRAY2RGBA.

(** [OpenCVProcessor::applyCanny] *)
Definition applyCanny (input output : MatRef) : M unit :=
  cvtColor input GrayMat COLOR_RGBA2GRAY ;;
  GaussianBlur GrayMat GrayMat (5, 5) 1.5%float ;;
  (fun p =>
     Canny GrayMat EdgesMat (cannyLowThreshold p) (cannyHighThreshold p) 3 p) ;;
  cvtColor EdgesMat output COLOR_GRAY2RGBA.

(** The [try] block of [processFrame]: the value returned, the caller's
    output block and the log line of the [default] case. *)
Definition processFrame_try (yuvData outputRgba : list byte) (mode : Z)
  : M (bool * list byte * list log_msg) :=
  yuvToRgba yuvData RgbaMat ;;
  if mode =? MODE_RAW then
    out <- (fun p => memcpy_from_mat outputRgba RgbaMat (rgbaBytes p) p) ;;
    ret (true, out, [])
  else if mode =? MODE_GRAYSCALE then
    applyGrayscale RgbaMat TempMat ;;
    out <- (fun p => memcpy_from_mat outputRgba TempMat (rgbaBytes p) p) ;;
    ret (true, out, [])
  else if mode =? MODE_CANNY then
    applyCanny RgbaMat TempMat ;;
    out <- (fun p => memcpy_from_mat outputRgba TempMat (rgbaBytes p) p) ;;
    ret (true, out, [])
  else
    ret (false, outputRgba, [LOGE_unknown_mode mode]).

(** [OpenCVProcessor::processFrame].  [yuvSize] is received and not read. *)
Definition processFrame (p : Processor) (yuvData : option (list byte))
           (yuvSize : Z) (outputRgba : option (list byte)) (mode : Z)
  : Outcome :=
  if negb (initialized p) then
    Returns false p outputRgba [LOGE_not_initialized]
  else
    match yuvData, outputRgba with
    | Some yuv, Some out =>
        match processFrame_try yuv out mode p with
        | Val (b, out', l) p' => Returns b p' (Some out') l
        | Throw p' => Returns false p' (Some out) [LOGE_opencv_exception]
        | Fault => Undefined
        end
    | _, _ => Returns false p outputRgba [LOGE_null_pointers]
    end.

(** [OpenCVProcessor::setCannyThresholds] *)
Definition setCannyThresholds (p : Processor) (low high : float) : Ret unit :=
  mkRet tt
    {| frameWidth := frameWidth p;
       frameHeight := frameHeight p;
       cannyLowThreshold := low;
       cannyHighThreshold := high;
       yuvMat := yuvMat p;
       rgbaMat := rgbaMat p;
       grayMat := grayMat p;
       edgesMat := edgesMat p;
       tempMat := tempMat p;
       initialized := initialized p |}
    [LOGI_thresholds_updated low high].

(** [OpenCVProcessor::release] *)
Definition release (p : Processor) : Ret unit :=
  if initialized p then
    mkRet tt
      {| frameWidth := frameWidth p;
         frameHeight := frameHeight p;
         cannyLowThreshold := cannyLowThreshold p;
         cannyHighThreshold := cannyHighThreshold p;
         yuvMat := Mat_release (yuvMat p);
         rgbaMat := Mat_release (rgbaMat p);
         grayMat := Mat_release (grayMat p);
         edgesMat := Mat_release (edgesMat p);
         tempMat := Mat_release (tempMat p);
         initialized := false |}
      [LOGI_released]
  else
    mkRet tt p [].

(** [OpenCVProcessor::~OpenCVProcessor]: the log lines of the implied
    [release]. *)
Definition destroy (p : Processor) : list log_msg := logged (release p).

End Processor.

(** ** The JNI entry points ([jni_bridge.cpp]) *)

(** The two services of the Java runtime the bridge relies on.  A byte array
    is its contents; [GetByteArrayElements] hands out the elements or a null
    pointer ([None]). *)
Record JNIEnv : Type := {
  GetByteArrayElements : list byte -> option (list byte)
}.

Definition GetArrayLength (array : list byte) : Z := Z.of_nat (length array).

Inductive JOutcome : Type :=
| JReturns (b : bool) (g_processor : option Processor) (output : list byte)
           (l : list log_msg)
| JUndefined.

Section Bridge.

Context {cv : OpenCV}.
Variable junk : Allocator.
Variable env : JNIEnv.

(** [Java_..._nativeInit]; [new] does not return null, so the check that
    follows it never fires.  An exception that leaves [init] leaves the
    entry point too, with the global pointing at the new object. *)
Definition nativeInit (g_processor : option Processor) (width height : Z)
  : Completion bool * option Processor * list log_msg :=
  let cleanup :=
    match g_processor with Some old => destroy old | None => [] end in
  let made := OpenCVProcessor in
  let r := init junk (self made) width height in
  match retval r with
  | Raised =>
      (Raised, Some (self r),
       [JNI_LOGI_nativeInit width height] ++ cleanup ++ logged made
         ++ logged r)
  | Returned false =>
      (Returned false, None,
       [JNI_LOGI_nativeInit width height] ++ cleanup ++ logged made
         ++ logged r ++ [JNI_LOGE_init_failed] ++ destroy (self r))
  | Returned true =>
      (Returned true, Some (self r),
       [JNI_LOGI_nativeInit width height] ++ cleanup ++ logged made
         ++ logged r ++ [JNI_LOGI_init_ok])
  end.

(** [Java_..._nativeProcessFrame] *)
Definition nativeProcessFrame (g_processor : option Processor)
           (input output : list byte) (width height mode : Z) : JOutcome :=
  match g_processor with
  | None => JReturns false None output [JNI_LOGE_no_processor]
  | Some p =>
      match GetByteArrayElements env input with
      | None => JReturns false g_processor output [JNI_LOGE_no_input_bytes]
      | Some inputBytes =>
          match GetByteArrayElements env output with
          | None =>
              JReturns false g_processor output [JNI_LOGE_no_output_bytes]
          | Some outputBytes =>
              let inputSize := GetArrayLength input in
              let outputSize := GetArrayLength output in
              let expectedInputSize :=
                int_div (int_mul (int_mul width height) 3) 2 in
              let expectedOutputSize := int_mul (int_mul width height) 4 in
              if inputSize <? expectedInputSize then
                JReturns false g_processor output
                  [JNI_LOGE_input_size expectedInputSize inputSize]
              else if outputSize <? expectedOutputSize then
                JReturns false g_processor output
                  [JNI_LOGE_output_size expectedOutputSize outputSize]
              else
                match processFrame p (Some inputBytes) (to_size_t inputSize)
                        (Some outputBytes) mode with
                | Undefined => JUndefined
                | Returns success p' out' l =>
                    (* mode 0 of ReleaseByteArrayElements copies back *)
                    let output' :=
                      match out' with Some o => o | None => output end in
                    if negb success then
                      JReturns false (Some p') output'
                        (l ++ [JNI_LOGE_processing_failed])
                    else JReturns true (Some p') output' l
                end
          end
      end
  end.

End Bridge.

(** Lines the two remaining entry points write: a line of the processor, or
    one of their own. *)
Inductive bridge_log : Type :=
| Processor_line (m : log_msg)
| JNI_LOGE_cannot_set_thresholds
| JNI_LOGI_nativeRelease_called
| JNI_LOGI_native_released.

(** [Java_..._nativeSetCannyThresholds] *)
Definition nativeSetCannyThresholds (g_processor : option Processor)
           (lowThreshold highThreshold : float)
  : option Processor * list bridge_log :=
  match g_processor with
  | Some p =>
      let r := setCannyThresholds p lowThreshold highThreshold in
      (Some (self r), map Processor_line (logged r))
  | None => (None, [JNI_LOGE_cannot_set_thresholds])
  end.

(** [Java_..._nativeRelease]: [release], then [delete] (whose destructor
    calls [release] once more), then the pointer is cleared. *)
Definition nativeRelease (g_processor : option Processor)
  : option Processor * list bridge_log :=
  match g_processor with
  | Some p =>
      let r := release p in
      (None,
       [JNI_LOGI_nativeRelease_called]
         ++ map Processor_line (logged r)
         ++ map Processor_line (destroy (self r))
         ++ [JNI_LOGI_native_released])
  | None => (None, [JNI_LOGI_nativeRelease_called])
  end.

(** ** Observations and the spec's wording of the edge chain *)

(** A matrix of [r] rows and [c] columns of type [t], with a block of the
    matching size. *)
Definition shape (m : Mat) (r c : Z) (t : MatType) : Prop :=
  rows m = r /\ cols m = c /\ mtype m = t /\
  Z.of_nat (length (data m)) = r * c * elemSize t.

(** What a caller can see of a [processFrame] call. *)
Definition observe (o : Outcome)
  : option (bool * option (list byte) * list log_msg) :=
  match o with
  | Returns b _ out l => Some (b, out, l)
  | Undefined => None
  end.

(** The source buffer once the frame was copied into it. *)
Definition loaded (p : Processor) (yuv : list byte) : Mat :=
  with_data (yuvMat p)
    (firstn (Z.to_nat (yuvBytes p)) yuv
       ++ skipn (Z.to_nat (yuvBytes p)) (data (yuvMat p))).

(** The five scalar members. *)
Definition settings (p : Processor) : Z * Z * float * float * bool :=
  (frameWidth p, frameHeight p, cannyLowThreshold p, cannyHighThreshold p,
   initialized p).

(** Two processors that a [processFrame] call cannot tell apart: equal
    scalars, and source buffers with the same header, the same size and the
    same bytes past the part every call overwrites. *)
Definition agree (p q : Processor) : Prop :=
  settings p = settings q /\
  rows (yuvMat p) = rows (yuvMat q) /\
  cols (yuvMat p) = cols (yuvMat q) /\
  mtype (yuvMat p) = mtype (yuvMat q) /\
  length (data (yuvMat p)) = length (data (yuvMat q)) /\
  skipn (Z.to_nat (yuvBytes p)) (data (yuvMat p)) =
  skipn (Z.to_nat (yuvBytes p)) (data (yuvMat q)).

(** A helper computation keeps the processor recognisable when, however it
    ends, the processor it leaves agrees with the one it found. *)
Definition keeps {A} (c : M A) : Prop :=
  forall p,
    match c p with
    | Val _ p' => agree p p'
    | Throw p' => agree p p'
    | Fault => True
    end.

(** How a helper computation ended, without the processor it left. *)
Definition result_of {A} (r : Res A) : option (option A) :=
  match r with
  | Val a _ => Some (Some a)
  | Throw _ => Some None
  | Fault => None
  end.

(** The arguments of one [processFrame] call. *)
Record call : Type := mkCall {
  call_yuvData : option (list byte);
  call_yuvSize : Z;
  call_outputRgba : option (list byte);
  call_mode : Z
}.

Section Sequences.

Context {cv : OpenCV}.

(** What a caller sees of a series of [processFrame] calls on one processor;
    the series ends at a call without a defined result. *)
Fixpoint run (p : Processor) (calls : list call)
  : list (option (bool * option (list byte) * list log_msg)) :=
  match calls with
  | [] => []
  | c :: rest =>
      match processFrame p (call_yuvData c) (call_yuvSize c)
              (call_outputRgba c) (call_mode c) with
      | Returns b p' out l => Some (b, out, l) :: run p' rest
      | Undefined => [None]
      end
  end.

End Sequences.

Section EdgeChainSpec.

Context {cv : OpenCV}.

(** The edge-detection chain in the words of the spec (section 4.3):
    reduce to intensity, smooth with a 5x5 kernel of deviation 1.5, extract
    edges between the two thresholds with a 3-wide operator, expand to four
    channels. *)
Definition edge_chain_spec (low high : float) (converted : Mat)
  : option (Mat * Mat * Mat) :=
  match cv_cvtColor COLOR_RGBA2GRAY converted with
  | None => None
  | Some luma =>
      match cv_GaussianBlur luma (5, 5) 1.5%float with
      | None => None
      | Some smoothed =>
          match cv_Canny smoothed low high 3 with
          | None => None
          | Some edges =>
              match cv_cvtColor COLOR_GRAY2RGBA edges with
              | None => None
              | Some scratch => Some (smoothed, edges, scratch)
              end
          end
      end
  end.

End EdgeChainSpec.

(** ** A small executable instance of the library interface

    Enough of the three routines to run the model on concrete frames: a
    grey-only colour conversion, a blur that leaves the image as it is, and an
    edge extractor that marks the pixels brighter than the high threshold. *)

Definition gray_pixel (g : byte) : list byte := [g; g; g; xff].

Fixpoint first_channels (l : list byte) : list byte :=
  match l with
  | r :: _ :: _ :: _ :: l' => r :: first_channels l'
  | _ => []
  end.

Definition byte_to_float (b : byte) : float :=
  PrimFloat.of_uint63 (Uint63.of_Z (Z.of_N (Byte.to_N b))).

Definition toy_cvtColor (code : ColorCode) (m : Mat) : option Mat :=
  match code, mtype m with
  | COLOR_YUV2RGBA_NV21, CV_8UC1 =>
      if (0 <? rows m) && (rows m mod 3 =? 0) && (cols m mod 2 =? 0) then
        let h := rows m * 2 / 3 in
        Some (mkMat h (cols m) CV_8UC4
                (flat_map gray_pixel
                   (firstn (Z.to_nat (h * cols m)) (data m))))
      else None
  | COLOR_RGBA2GRAY, CV_8UC4 =>
      Some (mkMat (rows m) (cols m) CV_8UC1 (first_channels (data m)))
  | COLOR_GRAY2RGBA, CV_8UC1 =>
      Some (mkMat (rows m) (cols m) CV_8UC4 (flat_map gray_pixel (data m)))
  | _, _ => None
  end.

Definition toy_GaussianBlur (m : Mat) (ksize : Z * Z) (sigmaX : float)
  : option Mat :=
  if Z.odd (fst ksize) && Z.odd (snd ksize) then Some m else None.

Definition toy_Canny (m : Mat) (low high : float) (apertureSize : Z)
  : option Mat :=
  match mtype m with
  | CV_8UC1 =>
      Some (mkMat (rows m) (cols m) CV_8UC1
              (map (fun b => if PrimFloat.ltb high (byte_to_float b)
                             then xff else x00) (data m)))
  | CV_8UC4 => None
  end.

Definition toy_cv : OpenCV :=
  {| cv_cvtColor := toy_cvtColor;
     cv_GaussianBlur := toy_GaussianBlur;
     cv_Canny := toy_Canny |}.

(** A heap that never has a block. *)
Definition no_heap : Allocator := fun _ _ _ => None.

(** A heap that always has a block, filled with zeros. *)
Definition zero_junk : Allocator := fun _ _ _ => Some (fun _ => x00).

Definition jvm : JNIEnv := {| GetByteArrayElements := Some |}.

(** A 2x2 processor and a frame for it, used to run the model. *)
Definition toy_processor : Processor :=
  self (init zero_junk (self OpenCVProcessor) 2 2).

Definition toy_frame : list byte := [x10; xc8; x20; xf0; x80; x80].

Definition toy_output : list byte := repeat x00 16.

(** The buffers of [toy_processor] after [toy_frame] went through the
    converter and the edge chain with the default thresholds. *)
Definition toy_converted : Mat :=
  Eval vm_compute in
    match toy_cvtColor COLOR_YUV2RGBA_NV21 (loaded toy_processor toy_frame) with
    | Some m => m
    | None => Mat_empty
    end.

Definition toy_smoothed : Mat :=
  Eval vm_compute in
    match @edge_chain_spec toy_cv 50%float 150%float toy_converted with
    | Some (m, _, _) => m
    | None => Mat_empty
    end.

Definition toy_edges : Mat :=
  Eval vm_compute in
    match @edge_chain_spec toy_cv 50%float 150%float toy_converted with
    | Some (_, m, _) => m
    | None => Mat_empty
    end.

Definition toy_scratch : Mat :=
  Eval vm_compute in
    match @edge_chain_spec toy_cv 50%float 150%float toy_converted with
    | Some (_, _, m) => m
    | None => Mat_empty
    end.

(** [toy_processor] after a call with the unknown mode 7 on [toy_frame]. *)
Definition toy_after_unknown_mode : Processor :=
  setMat RgbaMat toy_converted
    (setMat YuvMat (loaded toy_processor toy_frame) toy_processor).

(** The same instance with an edge extractor that always raises. *)
Definition no_canny_cv : OpenCV :=
  {| cv_cvtColor := toy_cvtColor;
     cv_GaussianBlur := toy_GaussianBlur;
     cv_Canny := fun _ _ _ _ => None |}.

(** A 1x1 processor: the converter of the instance refuses its one-row
    source buffer. *)
Definition tiny_processor : Processor :=
  self (init zero_junk (self OpenCVProcessor) 1 1).

(** A 4x4 processor, whose frame needs 24 bytes. *)
Definition wide_processor : Processor :=
  self (init zero_junk (self OpenCVProcessor) 4 4).

(** [toy_processor] after an edge-mode call on [toy_frame], and the block
    the call leaves to the caller. *)
Definition toy_after_edge_call : Processor :=
  {| frameWidth := 2;
     frameHeight := 2;
     cannyLowThreshold := 50%float;
     cannyHighThreshold := 150%float;
     yuvMat := loaded toy_processor toy_frame;
     rgbaMat := toy_converted;
     grayMat := toy_smoothed;
     edgesMat := toy_edges;
     tempMat := toy_scratch;
     initialized := true |}.

Definition toy_edge_output : list byte :=
  [x00; x00; x00; xff; xff; xff; xff; xff;
   x00; x00; x00; xff; xff; xff; xff; xff].

(** The same for a grayscale call. *)
Definition toy_luma : Mat :=
  Eval vm_compute in
    match toy_cvtColor COLOR_RGBA2GRAY toy_converted with
    | Some m => m
    | None => Mat_empty
    end.

Definition toy_gray_scratch : Mat :=
  Eval vm_compute in
    match toy_cvtColor COLOR_GRAY2RGBA toy_luma with
    | Some m => m
    | None => Mat_empty
    end.

Definition toy_after_gray_call : Processor :=
  setMat TempMat toy_gray_scratch
    (setMat GrayMat toy_luma toy_after_unknown_mode).

Definition toy_gray_output : list byte := data toy_gray_scratch.

(** * Properties *)

(** ** Construction, thresholds, release *)

(** C8: a freshly constructed processor stores the thresholds 50.0 and 150.0,
    and [setCannyThresholds] stores exactly the two values it is given, in
    either order and whatever the state of the processor, touching nothing
    else. *)
Theorem thresholds_default_and_stored_as_given :
  cannyLowThreshold (self OpenCVProcessor) = 50%float /\
  cannyHighThreshold (self OpenCVProcessor) = 150%float /\
  forall (p : Processor) (low high : float),
    cannyLowThreshold (self (setCannyThresholds p low high)) = low /\
    cannyHighThreshold (self (setCannyThresholds p low high)) = high /\
    frameWidth (self (setCannyThresholds p low high)) = frameWidth p /\
    frameHeight (self (setCannyThresholds p low high)) = frameHeight p /\
    initialized (self (setCannyThresholds p low high)) = initialized p /\
    (forall r, getMat r (self (setCannyThresholds p low high)) = getMat r p).
Proof.
  repeat split; destruct r; reflexivity.
Qed.

Lemma release_clears_flag (p : Processor) :
  initialized (self (release p)) = false.
Proof.
  unfold release. destruct (initialized p) eqn:E; simpl; [reflexivity | exact E].
Qed.

Lemma release_noop (p : Processor) :
  initialized p = false -> release p = mkRet tt p [].
Proof.
  intros E. unfold release. rewrite E. reflexivity.
Qed.

(** C6: releasing twice leaves the processor exactly where releasing once
    leaves it; the second call, like any call on a processor that is not
    initialized, changes nothing and logs nothing; after [release] the flag
    is false. *)
Theorem release_idempotent (p : Processor) :
  self (release (self (release p))) = self (release p) /\
  release (self (release p)) = mkRet tt (self (release p)) [] /\
  initialized (self (release p)) = false /\
  (initialized p = false -> release p = mkRet tt p []).
Proof.
  pose proof (release_noop (self (release p)) (release_clears_flag p)) as H.
  repeat split.
  - rewrite H. reflexivity.
  - exact H.
  - apply release_clears_flag.
  - apply release_noop.
Qed.

Lemma release_idempotent_witness :
  release (self OpenCVProcessor) = mkRet tt (self OpenCVProcessor) [].
Proof.
  exact (proj2 (proj2 (proj2 (release_idempotent (self OpenCVProcessor))))
           eq_refl).
Defined.

(** C10: [release] and [init], whether [init] succeeds or fails, leave both
    thresholds as they were; thresholds set before a release / re-init cycle
    are the ones the processor holds after it. *)
Theorem thresholds_survive_release_and_init
        (junk : Allocator) (p : Processor) (width height : Z) :
  cannyLowThreshold (self (release p)) = cannyLowThreshold p /\
  cannyHighThreshold (self (release p)) = cannyHighThreshold p /\
  cannyLowThreshold (self (init junk p width height)) = cannyLowThreshold p /\
  cannyHighThreshold (self (init junk p width height)) = cannyHighThreshold p /\
  forall low high : float,
    let cycled :=
      self (init junk (self (release (self (setCannyThresholds p low high))))
              width height) in
    cannyLowThreshold cycled = low /\ cannyHighThreshold cycled = high.
Proof.
  assert (R : forall q, cannyLowThreshold (self (release q)) = cannyLowThreshold q
                     /\ cannyHighThreshold (self (release q)) = cannyHighThreshold q).
  { intros q. unfold release. destruct (initialized q); split; reflexivity. }
  assert (I : forall q, cannyLowThreshold (self (init junk q width height))
                        = cannyLowThreshold q
                     /\ cannyHighThreshold (self (init junk q width height))
                        = cannyHighThreshold q).
  { intros q. unfold init.
    destruct ((width <=? 0) || (height <=? 0)); [split; reflexivity |].
    repeat (match goal with
            | |- context [Mat_create ?f ?r ?c ?t] =>
                destruct (Mat_create f r c t)
            end; [| split; reflexivity]).
    split; reflexivity. }
  destruct (R p) as [R1 R2]. destruct (I p) as [I1 I2].
  repeat (split; [assumption |]).
  intros low high cycled. subst cycled.
  destruct (I (self (release (self (setCannyThresholds p low high))))) as [E1 E2].
  destruct (R (self (setCannyThresholds p low high))) as [E3 E4].
  rewrite E1, E2, E3, E4. split; reflexivity.
Qed.

(** ** [init] *)

Lemma Mat_create_granted (fresh : Z -> option (nat -> byte)) (r c : Z)
      (t : MatType) (junk : nat -> byte) :
  0 <= r -> 0 <= c -> fresh (r * c * elemSize t) = Some junk ->
  Mat_create fresh r c t =
  Some {| rows := r; cols := c; mtype := t;
          data := map junk (seq 0 (Z.to_nat (r * c * elemSize t))) |}.
Proof.
  intros Hr Hc E. unfold Mat_create.
  apply Z.ltb_ge in Hr, Hc. rewrite Hr, Hc, E. reflexivity.
Qed.

Lemma Mat_create_shape (fresh : Z -> option (nat -> byte)) (r c : Z)
      (t : MatType) (m : Mat) :
  Mat_create fresh r c t = Some m -> shape m r c t.
Proof.
  unfold Mat_create, shape.
  destruct (r <? 0) eqn:Hr; [discriminate |].
  destruct (c <? 0) eqn:Hc; [discriminate |]. simpl.
  destruct (fresh (r * c * elemSize t)); [| discriminate].
  intros H. inversion H. simpl.
  apply Z.ltb_ge in Hr, Hc. repeat split.
  rewrite length_map, length_seq.
  apply Z2Nat.id. destruct t; simpl; nia.
Qed.

Lemma int_add_half (height : Z) :
  0 < height -> height + height / 2 < 2 ^ 31 ->
  int_add height (int_div height 2) = height + height / 2.
Proof.
  intros Hh Hb. unfold int_add, int_div.
  rewrite Z.quot_div_nonneg by lia.
  assert (0 <= height / 2) by (apply Z.div_pos; lia).
  unfold wrap32. rewrite Z.mod_small; lia.
Qed.

(** With positive dimensions, a row count that fits an [int] and a heap that
    has the five blocks, [init] runs to its end. *)
Lemma init_succeeds (junk : Allocator) (p : Processor) (width height : Z) :
  0 < width -> 0 < height -> height + height / 2 < 2 ^ 31 ->
  granted junk p width height = true ->
  exists yuv rgba gray edges temp,
    init junk p width height =
    mkRet (Returned true)
      {| frameWidth := width;
         frameHeight := height;
         cannyLowThreshold := cannyLowThreshold p;
         cannyHighThreshold := cannyHighThreshold p;
         yuvMat := yuv;
         rgbaMat := rgba;
         grayMat := gray;
         edgesMat := edges;
         tempMat := temp;
         initialized := true |}
      [LOGI_initialized width height] /\
    shape yuv (height + height / 2) width CV_8UC1 /\
    shape rgba height width CV_8UC4 /\
    shape gray height width CV_8UC1 /\
    shape edges height width CV_8UC1 /\
    shape temp height width CV_8UC4.
Proof.
  intros Hw Hh Hb G. unfold granted in G. unfold init.
  assert (E : (width <=? 0) || (height <=? 0) = false).
  { apply orb_false_iff. split; apply Z.leb_gt; assumption. }
  rewrite E. rewrite (int_add_half height Hh Hb) in *.
  assert (0 <= height / 2) by (apply Z.div_pos; lia).
  destruct (junk p YuvMat _) as [f1 |] eqn:E1; [| discriminate].
  destruct (junk p RgbaMat _) as [f2 |] eqn:E2; [| discriminate].
  destruct (junk p GrayMat _) as [f3 |] eqn:E3; [| discriminate].
  destruct (junk p EdgesMat _) as [f4 |] eqn:E4; [| discriminate].
  destruct (junk p TempMat _) as [f5 |] eqn:E5; [| discriminate].
  rewrite (Mat_create_granted _ _ _ _ f1) by (lia || exact E1).
  rewrite (Mat_create_granted _ _ _ _ f2) by (lia || exact E2).
  rewrite (Mat_create_granted _ _ _ _ f3) by (lia || exact E3).
  rewrite (Mat_create_granted _ _ _ _ f4) by (lia || exact E4).
  rewrite (Mat_create_granted _ _ _ _ f5) by (lia || exact E5).
  do 5 eexists. split; [reflexivity |].
  repeat split; simpl; rewrite length_map, length_seq;
    apply Z2Nat.id; nia.
Qed.

(** What [init] has done when it returned true. *)
Lemma init_returned_true (junk : Allocator) (p : Processor)
      (width height : Z) :
  retval (init junk p width height) = Returned true ->
  exists yuv rgba gray edges temp,
    init junk p width height =
    mkRet (Returned true)
      {| frameWidth := width;
         frameHeight := height;
         cannyLowThreshold := cannyLowThreshold p;
         cannyHighThreshold := cannyHighThreshold p;
         yuvMat := yuv;
         rgbaMat := rgba;
         grayMat := gray;
         edgesMat := edges;
         tempMat := temp;
         initialized := true |}
      [LOGI_initialized width height] /\
    shape yuv (int_add height (int_div height 2)) width CV_8UC1 /\
    shape rgba height width CV_8UC4 /\
    shape gray height width CV_8UC1 /\
    shape edges height width CV_8UC1 /\
    shape temp height width CV_8UC4.
Proof.
  unfold init.
  destruct ((width <=? 0) || (height <=? 0)); [discriminate |].
  destruct (Mat_create (junk p YuvMat) _ _ _) as [yuv |] eqn:E1;
    [| discriminate].
  destruct (Mat_create (junk p RgbaMat) _ _ _) as [rgba |] eqn:E2;
    [| discriminate].
  destruct (Mat_create (junk p GrayMat) _ _ _) as [gray |] eqn:E3;
    [| discriminate].
  destruct (Mat_create (junk p EdgesMat) _ _ _) as [edges |] eqn:E4;
    [| discriminate].
  destruct (Mat_create (junk p TempMat) _ _ _) as [temp |] eqn:E5;
    [| discriminate].
  intros _. exists yuv, rgba, gray, edges, temp.
  split; [reflexivity |].
  repeat split; eapply Mat_create_shape; eassumption.
Qed.

(** C4, as the code has it (amended): with a non-positive width or height
    [init] returns false and hands back the processor untouched; on a fresh
    processor [init(0, 10)] fails, the processor stays uninitialized and
    every later [processFrame] fails with the "not initialized" report; with
    both dimensions positive, a row count [height + height / 2] that fits an
    [int] and a heap that has the five blocks, [init] returns true, stores
    the dimensions and sets the flag. *)
Theorem init_contract {cv : OpenCV} (junk : Allocator)
        (p : Processor) (width height : Z) :
  (width <= 0 \/ height <= 0 ->
   retval (init junk p width height) = Returned false /\
   self (init junk p width height) = p) /\
  (let q := self (init junk (self OpenCVProcessor) 0 10) in
   retval (init junk (self OpenCVProcessor) 0 10) = Returned false /\
   q = self OpenCVProcessor /\
   initialized q = false /\
   forall yuvData yuvSize outputRgba mode,
     processFrame q yuvData yuvSize outputRgba mode =
     Returns false q outputRgba [LOGE_not_initialized]) /\
  (0 < width -> 0 < height -> height + height / 2 < 2 ^ 31 ->
   granted junk p width height = true ->
   retval (init junk p width height) = Returned true /\
   frameWidth (self (init junk p width height)) = width /\
   frameHeight (self (init junk p width height)) = height /\
   initialized (self (init junk p width height)) = true).
Proof.
  split; [| split].
  - intros H. unfold init.
    assert (E : (width <=? 0) || (height <=? 0) = true).
    { apply orb_true_iff. destruct H; [left | right]; apply Z.leb_le; assumption. }
    rewrite E. split; reflexivity.
  - cbv zeta. repeat split.
  - intros Hw Hh Hb G.
    destruct (init_succeeds junk p width height Hw Hh Hb G)
      as (yuv & rgba & gray & edges & temp & E & _).
    rewrite E. repeat split.
Qed.

Lemma init_contract_witness :
  (retval (init zero_junk toy_processor 0 10) = Returned false /\
   self (init zero_junk toy_processor 0 10) = toy_processor) /\
  (retval (init zero_junk (self OpenCVProcessor) 3 4) = Returned true /\
   frameWidth (self (init zero_junk (self OpenCVProcessor) 3 4)) = 3 /\
   frameHeight (self (init zero_junk (self OpenCVProcessor) 3 4)) = 4 /\
   initialized (self (init zero_junk (self OpenCVProcessor) 3 4)) = true).
Proof.
  split.
  - apply (proj1 (@init_contract toy_cv zero_junk toy_processor 0 10)).
    left. lia.
  - apply (proj2 (proj2 (@init_contract toy_cv zero_junk
                           (self OpenCVProcessor) 3 4)));
      try lia; reflexivity.
Defined.

(** C4 as first stated fails: width 1 and height 2147483647 are positive,
    but the row count [height + height / 2] of the source buffer leaves the
    range of [int] and the matrix constructor raises; [init] returns nothing
    and the flag stays false. *)
Lemma init_huge_height_raises :
  0 < 1 /\ 0 < 2147483647 /\
  retval (init zero_junk (self OpenCVProcessor) 1 2147483647) = Raised /\
  initialized (self (init zero_junk (self OpenCVProcessor) 1 2147483647))
  = false.
Proof.
  repeat split; try lia; vm_compute; reflexivity.
Qed.

(** The same happens at any size when the heap has no block: the exception
    of the first constructor leaves [init], after the dimensions were
    stored. *)
Lemma init_without_memory_raises (p : Processor) (width height : Z) :
  0 < width -> 0 < height ->
  init no_heap p width height =
  mkRet Raised
    (mkProcessor width height (cannyLowThreshold p) (cannyHighThreshold p)
       (yuvMat p) (rgbaMat p) (grayMat p) (edgesMat p) (tempMat p)
       (initialized p))
    [].
Proof.
  intros Hw Hh. unfold init.
  assert (E : (width <=? 0) || (height <=? 0) = false).
  { apply orb_false_iff. split; apply Z.leb_gt; assumption. }
  rewrite E. unfold Mat_create, no_heap.
  destruct ((int_add height (int_div height 2) <? 0) || (width <? 0));
    reflexivity.
Qed.

(** ** [processFrame]: the checks before the [try] block *)

(** C3: on a processor whose flag is false, [processFrame] returns false with
    the "not initialized" report whatever its arguments are; the processor
    (so every buffer: nothing was converted) and the caller's output block are
    handed back as they were. *)
Theorem processFrame_uninitialized {cv : OpenCV} (p : Processor)
        (yuvData : option (list byte)) (yuvSize : Z)
        (outputRgba : option (list byte)) (mode : Z) :
  initialized p = false ->
  processFrame p yuvData yuvSize outputRgba mode =
  Returns false p outputRgba [LOGE_not_initialized].
Proof.
  intros E. unfold processFrame. rewrite E. reflexivity.
Qed.

Lemma processFrame_uninitialized_witness :
  @processFrame toy_cv (self (release toy_processor)) (Some toy_frame) 6
    (Some toy_output) MODE_CANNY =
  Returns false (self (release toy_processor)) (Some toy_output)
    [LOGE_not_initialized].
Proof.
  apply (@processFrame_uninitialized toy_cv). reflexivity.
Defined.

(** ** Facts about [memcpy] and the frame sizes *)

Lemma memcpy_Some (dst src : list byte) (n : Z) :
  n <= Z.of_nat (length src) -> n <= Z.of_nat (length dst) ->
  memcpy dst src n = Some (firstn (Z.to_nat n) src ++ skipn (Z.to_nat n) dst).
Proof.
  intros Hs Hd. unfold memcpy.
  apply Z.leb_le in Hs. apply Z.leb_le in Hd. rewrite Hs, Hd. reflexivity.
Qed.

Lemma memcpy_inv (dst src d : list byte) (n : Z) :
  memcpy dst src n = Some d ->
  n <= Z.of_nat (length src) /\ n <= Z.of_nat (length dst) /\
  d = firstn (Z.to_nat n) src ++ skipn (Z.to_nat n) dst.
Proof.
  unfold memcpy.
  destruct (n <=? Z.of_nat (length src)) eqn:Hs;
    destruct (n <=? Z.of_nat (length dst)) eqn:Hd; simpl; try discriminate.
  intros H. inversion H. apply Z.leb_le in Hs. apply Z.leb_le in Hd. auto.
Qed.

Lemma memcpy_short_src (dst src : list byte) (n : Z) :
  Z.of_nat (length src) < n -> memcpy dst src n = None.
Proof.
  intros H. unfold memcpy. apply Z.leb_gt in H. rewrite H. reflexivity.
Qed.

Lemma memcpy_length (dst src d : list byte) (n : Z) :
  memcpy dst src n = Some d -> length d = length dst.
Proof.
  intros H. apply memcpy_inv in H. destruct H as (Hs & Hd & ->).
  rewrite length_app, length_firstn, length_skipn. lia.
Qed.

Lemma memcpy_tail (dst src d : list byte) (n : Z) :
  memcpy dst src n = Some d ->
  skipn (Z.to_nat n) d = skipn (Z.to_nat n) dst.
Proof.
  intros H. apply memcpy_inv in H. destruct H as (Hs & Hd & ->).
  rewrite skipn_app.
  assert (L : length (firstn (Z.to_nat n) src) = Z.to_nat n).
  { rewrite length_firstn. lia. }
  rewrite L, Nat.sub_diag. simpl.
  rewrite skipn_all2 by lia. reflexivity.
Qed.

(** The copy depends on the destination only through its size and the bytes
    past the copied part. *)
Lemma memcpy_dst_cong (dst1 dst2 src : list byte) (n : Z) :
  length dst1 = length dst2 ->
  skipn (Z.to_nat n) dst1 = skipn (Z.to_nat n) dst2 ->
  memcpy dst1 src n = memcpy dst2 src n.
Proof.
  intros L T. unfold memcpy. rewrite L, T. reflexivity.
Qed.

(** The copy depends on the source only through its first [n] bytes. *)
Lemma memcpy_src_prefix (dst src1 src2 : list byte) (n : Z) :
  firstn (Z.to_nat n) src1 = firstn (Z.to_nat n) src2 ->
  memcpy dst src1 n = memcpy dst src2 n.
Proof.
  intros E. unfold memcpy. rewrite E.
  assert (L : (n <=? Z.of_nat (length src1)) = (n <=? Z.of_nat (length src2))).
  { pose proof (f_equal (@length byte) E) as EL.
    rewrite !length_firstn in EL.
    destruct (n <=? Z.of_nat (length src1)) eqn:H1;
      destruct (n <=? Z.of_nat (length src2)) eqn:H2; try reflexivity;
      [apply Z.leb_le in H1; apply Z.leb_gt in H2
      |apply Z.leb_gt in H1; apply Z.leb_le in H2]; lia. }
  rewrite L. reflexivity.
Qed.

Lemma wrap32_small (z : Z) : - 2 ^ 31 <= z < 2 ^ 31 -> wrap32 z = z.
Proof.
  intros H. unfold wrap32. rewrite Z.mod_small; lia.
Qed.

(** Without overflow the two byte counts are the ones of the planar and of
    the packed frame. *)
Lemma yuvBytes_exact (p : Processor) :
  0 < frameWidth p -> 0 < frameHeight p ->
  frameWidth p * frameHeight p * 3 < 2 ^ 31 ->
  yuvBytes p = frameWidth p * frameHeight p * 3 / 2.
Proof.
  intros Hw Hh Hb. unfold yuvBytes, int_div, int_mul, to_size_t.
  assert (0 < frameWidth p * frameHeight p) by lia.
  rewrite (wrap32_small (frameWidth p * frameHeight p)) by lia.
  rewrite wrap32_small by lia.
  rewrite Z.quot_div_nonneg by lia.
  apply Z.mod_small. split.
  - apply Z.div_pos; lia.
  - apply Z.le_lt_trans with (frameWidth p * frameHeight p * 3).
    + apply Z.div_le_upper_bound; lia.
    + lia.
Qed.

Lemma rgbaBytes_exact (p : Processor) :
  0 < frameWidth p -> 0 < frameHeight p ->
  frameWidth p * frameHeight p * 4 < 2 ^ 31 ->
  rgbaBytes p = frameWidth p * frameHeight p * 4.
Proof.
  intros Hw Hh Hb. unfold rgbaBytes, int_mul, to_size_t.
  assert (0 < frameWidth p * frameHeight p) by lia.
  rewrite (wrap32_small (frameWidth p * frameHeight p)) by lia.
  rewrite wrap32_small by lia.
  apply Z.mod_small. lia.
Qed.

Lemma yuvBytes_settings (p q : Processor) :
  settings p = settings q -> yuvBytes p = yuvBytes q.
Proof.
  unfold settings, yuvBytes. intros H. inversion H as [[Hw Hh Hl Hu Hi]].
  rewrite Hw, Hh. reflexivity.
Qed.

Lemma agree_refl (p : Processor) : agree p p.
Proof. unfold agree. repeat split. Qed.

Lemma agree_sym (p q : Processor) : agree p q -> agree q p.
Proof.
  unfold agree. intros (S & R & C & T & L & K).
  rewrite <- (yuvBytes_settings p q S). repeat split; congruence.
Qed.

Lemma agree_trans (p q r : Processor) : agree p q -> agree q r -> agree p r.
Proof.
  unfold agree. intros (S & R & C & T & L & K) (S' & R' & C' & T' & L' & K').
  rewrite <- (yuvBytes_settings p q S) in K'. repeat split; congruence.
Qed.

(** ** [processFrame]: the conversion step *)

Section Frames.

Context {cv : OpenCV}.

Lemma yuvToRgba_short_input (p : Processor) (yuv : list byte) (output : MatRef) :
  Z.of_nat (length yuv) < yuvBytes p ->
  yuvToRgba yuv output p = Fault.
Proof.
  intros H. unfold yuvToRgba, bind, memcpy_to_mat. simpl.
  rewrite memcpy_short_src by exact H. reflexivity.
Qed.

Lemma yuvToRgba_converts (p : Processor) (yuv : list byte) (converted : Mat) :
  yuvBytes p <= Z.of_nat (length yuv) ->
  yuvBytes p <= Z.of_nat (length (data (yuvMat p))) ->
  cv_cvtColor COLOR_YUV2RGBA_NV21 (loaded p yuv) = Some converted ->
  yuvToRgba yuv RgbaMat p =
  Val tt (setMat RgbaMat converted (setMat YuvMat (loaded p yuv) p)).
Proof.
  intros Hs Hd Hc. unfold yuvToRgba, bind, memcpy_to_mat, cvtColor. simpl.
  rewrite memcpy_Some by assumption. simpl.
  unfold loaded in Hc. rewrite Hc. reflexivity.
Qed.

Lemma yuvToRgba_throws (p : Processor) (yuv : list byte) :
  yuvBytes p <= Z.of_nat (length yuv) ->
  yuvBytes p <= Z.of_nat (length (data (yuvMat p))) ->
  cv_cvtColor COLOR_YUV2RGBA_NV21 (loaded p yuv) = None ->
  yuvToRgba yuv RgbaMat p = Throw (setMat YuvMat (loaded p yuv) p).
Proof.
  intros Hs Hd Hc. unfold yuvToRgba, bind, memcpy_to_mat, cvtColor. simpl.
  rewrite memcpy_Some by assumption. simpl.
  unfold loaded in Hc. rewrite Hc. reflexivity.
Qed.

(** An input block shorter than the frame makes the first [memcpy] read
    past its end, whatever [yuvSize] says: the call has no defined result,
    and in particular reports nothing. *)
Lemma processFrame_short_input (p : Processor) (yuv : list byte) (yuvSize : Z)
      (out : list byte) (mode : Z) :
  initialized p = true ->
  Z.of_nat (length yuv) < yuvBytes p ->
  processFrame p (Some yuv) yuvSize (Some out) mode = Undefined.
Proof.
  intros Hi Hs. unfold processFrame, processFrame_try. rewrite Hi. simpl.
  unfold bind at 1. rewrite yuvToRgba_short_input by exact Hs. reflexivity.
Qed.

(** C1 (the code departs from it): on a 2x2 processor, which needs 6 input
    bytes, a call with a 5-byte block and [yuvSize = 5] is not answered with
    a reported failure: the copy into the source buffer leaves the block. *)
Theorem processFrame_five_of_six_bytes (junk : Allocator) :
  retval (init junk (self OpenCVProcessor) 2 2) = Returned true ->
  processFrame (self (init junk (self OpenCVProcessor) 2 2))
    (Some [x10; xc8; x20; xf0; x80]) 5 (Some (repeat x00 16)) MODE_RAW
  = Undefined.
Proof.
  intros H. apply init_returned_true in H.
  destruct H as (yuv & rgba & gray & edges & temp & E & _). rewrite E.
  apply processFrame_short_input; [reflexivity | vm_compute; reflexivity].
Qed.

(** The bridge does compare the array length with the frame size, but with
    the frame size of the dimensions the Java side passes along, not with
    the processor's. *)
Lemma bridge_rejects_short_array (p : Processor) :
  nativeProcessFrame jvm (Some p)
    [x10; xc8; x20; xf0; x80] (repeat x00 16) 2 2 MODE_RAW
  = JReturns false (Some p) (repeat x00 16) [JNI_LOGE_input_size 6 5].
Proof. reflexivity. Qed.

Lemma bridge_passes_short_array (junk : Allocator) :
  fst (fst (nativeInit junk None 4 4)) = Returned true ->
  nativeProcessFrame jvm (snd (fst (nativeInit junk None 4 4)))
    [x10; xc8; x20; xf0; x80; x80] (repeat x00 16) 2 2 MODE_RAW
  = JUndefined.
Proof.
  unfold nativeInit. cbv zeta.
  destruct (retval (init junk (self OpenCVProcessor) 4 4))
    as [[|] |] eqn:R; cbn [fst snd]; try discriminate.
  intros _. apply init_returned_true in R.
  destruct R as (yuv & rgba & gray & edges & temp & E & _). rewrite E.
  unfold nativeProcessFrame. cbn [self].
  change (GetByteArrayElements jvm) with (@Some (list byte)). cbv beta iota zeta.
  replace (GetArrayLength [x10; xc8; x20; xf0; x80; x80] <?
           int_div (int_mul (int_mul 2 2) 3) 2) with false by reflexivity.
  replace (GetArrayLength (repeat x00 16) <? int_mul (int_mul 2 2) 4)
    with false by reflexivity.
  cbv iota.
  rewrite processFrame_short_input;
    [reflexivity | reflexivity | vm_compute; reflexivity].
Qed.

(** C5, as the code has it (amended): on an initialized processor, with
    both pointers set, an input block and a source buffer that hold a frame
    and a colour conversion that returns, a mode other than 0, 1, 2 makes
    [processFrame] return false with the "unknown mode" report.  The
    conversion has run: the source buffer starts with the first
    [width * height * 3 / 2] bytes of the input and the converted buffer is
    the conversion of the source buffer.  Nothing else changed: the luma,
    edge and scratch buffers, the scalars and the caller's output block are
    as before. *)
Theorem unknown_mode_fails_after_conversion (p : Processor)
        (yuv : list byte) (yuvSize : Z) (out : list byte) (mode : Z)
        (converted : Mat) :
  initialized p = true ->
  mode <> MODE_RAW -> mode <> MODE_GRAYSCALE -> mode <> MODE_CANNY ->
  yuvBytes p <= Z.of_nat (length yuv) ->
  yuvBytes p <= Z.of_nat (length (data (yuvMat p))) ->
  cv_cvtColor COLOR_YUV2RGBA_NV21 (loaded p yuv) = Some converted ->
  let p' := setMat RgbaMat converted (setMat YuvMat (loaded p yuv) p) in
  processFrame p (Some yuv) yuvSize (Some out) mode =
  Returns false p' (Some out) [LOGE_unknown_mode mode] /\
  data (yuvMat p') =
  firstn (Z.to_nat (yuvBytes p)) yuv
    ++ skipn (Z.to_nat (yuvBytes p)) (data (yuvMat p)) /\
  (0 < frameWidth p -> 0 < frameHeight p ->
   frameWidth p * frameHeight p * 3 < 2 ^ 31 ->
   firstn (Z.to_nat (frameWidth p * frameHeight p * 3 / 2)) (data (yuvMat p'))
   = firstn (Z.to_nat (frameWidth p * frameHeight p * 3 / 2)) yuv /\
   frameWidth p * frameHeight p * 3 / 2 <= Z.of_nat (length yuv)) /\
  cv_cvtColor COLOR_YUV2RGBA_NV21 (yuvMat p') = Some (rgbaMat p') /\
  rgbaMat p' = converted /\
  grayMat p' = grayMat p /\ edgesMat p' = edgesMat p /\
  tempMat p' = tempMat p /\ settings p' = settings p.
Proof.
  intros Hi H0 H1 H2 Hs Hd Hc p'.
  split; [| split; [| split; [| split; [| repeat split]]]].
  - unfold processFrame, processFrame_try. rewrite Hi. simpl negb. cbv iota.
    unfold bind at 1.
    rewrite (yuvToRgba_converts p yuv converted) by assumption.
    apply Z.eqb_neq in H0, H1, H2. rewrite H0, H1, H2. reflexivity.
  - reflexivity.
  - intros Hw Hh Hb. rewrite <- (yuvBytes_exact p Hw Hh Hb).
    split; [| exact Hs].
    subst p'. cbn [setMat yuvMat]. unfold loaded, with_data. cbn [data].
    rewrite firstn_app, firstn_firstn, Nat.min_id, length_firstn.
    replace (Z.to_nat (yuvBytes p)
             - Nat.min (Z.to_nat (yuvBytes p)) (length yuv))%nat
      with 0%nat by lia.
    simpl. apply app_nil_r.
  - exact Hc.
Qed.


(** C9: two calls on the same processor, with the same mode and output
    block, whose input blocks agree on their first [width*height*3/2]
    bytes, have the same outcome in every respect, whatever the two
    [yuvSize] arguments and the bytes past the frame are. *)
Theorem yuvSize_and_trailing_bytes_ignored (p : Processor)
        (yuv1 yuv2 : list byte) (yuvSize1 yuvSize2 : Z)
        (outputRgba : option (list byte)) (mode : Z) :
  firstn (Z.to_nat (yuvBytes p)) yuv1 = firstn (Z.to_nat (yuvBytes p)) yuv2 ->
  processFrame p (Some yuv1) yuvSize1 outputRgba mode =
  processFrame p (Some yuv2) yuvSize2 outputRgba mode.
Proof.
  intros E. unfold processFrame.
  destruct (negb (initialized p)); [reflexivity |].
  destruct outputRgba as [out |]; [| reflexivity].
  assert (Y : yuvToRgba yuv1 RgbaMat p = yuvToRgba yuv2 RgbaMat p).
  { unfold yuvToRgba, bind, memcpy_to_mat.
    rewrite (memcpy_src_prefix _ yuv1 yuv2) by exact E. reflexivity. }
  unfold processFrame_try. unfold bind at 1 7. rewrite Y. reflexivity.
Qed.

End Frames.

Lemma unknown_mode_fails_after_conversion_witness :
  @processFrame toy_cv toy_processor (Some toy_frame) 6 (Some toy_output) 7 =
  Returns false toy_after_unknown_mode (Some toy_output) [LOGE_unknown_mode 7]
  /\
  data (yuvMat toy_processor) = [x00; x00; x00; x00; x00; x00] /\
  data (yuvMat toy_after_unknown_mode) = [x10; xc8; x20; xf0; x80; x80] /\
  data (rgbaMat toy_after_unknown_mode) =
  [x10; x10; x10; xff; xc8; xc8; xc8; xff;
   x20; x20; x20; xff; xf0; xf0; xf0; xff].
Proof.
  destruct (@unknown_mode_fails_after_conversion toy_cv toy_processor
              toy_frame 6 toy_output 7 toy_converted)
    as (Hcall & Hdata & _ & _ & Hrgba & _).
  - reflexivity.
  - unfold MODE_RAW. lia.
  - unfold MODE_GRAYSCALE. lia.
  - unfold MODE_CANNY. lia.
  - vm_compute. discriminate.
  - vm_compute. discriminate.
  - vm_compute. reflexivity.
  - split; [exact Hcall |]. split; [reflexivity |]. split.
    + etransitivity; [exact Hdata |]. vm_compute. reflexivity.
    + etransitivity; [exact (f_equal data Hrgba) |]. reflexivity.
Defined.

(** C5 as first stated fails: on an initialized processor and with mode 7, a
    call with a null input pointer is answered with the "null pointers"
    report, not the "unknown mode" one, and the converter has not run: the
    processor is handed back as it was. *)
Lemma unknown_mode_with_null_input :
  initialized toy_processor = true /\
  7 <> MODE_RAW /\ 7 <> MODE_GRAYSCALE /\ 7 <> MODE_CANNY /\
  @processFrame toy_cv toy_processor None 0 (Some toy_output) 7 =
  Returns false toy_processor (Some toy_output) [LOGE_null_pointers] /\
  [LOGE_null_pointers] <> [LOGE_unknown_mode 7].
Proof.
  repeat split; try (unfold MODE_RAW, MODE_GRAYSCALE, MODE_CANNY; lia);
    discriminate.
Qed.

Lemma processFrame_five_of_six_bytes_witness :
  retval (init zero_junk (self OpenCVProcessor) 2 2) = Returned true /\
  @processFrame toy_cv (self (init zero_junk (self OpenCVProcessor) 2 2))
    (Some [x10; xc8; x20; xf0; x80]) 5 (Some (repeat x00 16)) MODE_RAW
  = Undefined.
Proof.
  split; [reflexivity |].
  apply (@processFrame_five_of_six_bytes toy_cv zero_junk). reflexivity.
Defined.


Lemma yuvSize_and_trailing_bytes_ignored_witness :
  @processFrame toy_cv toy_processor (Some toy_frame) 6 (Some toy_output)
    MODE_CANNY =
  @processFrame toy_cv toy_processor (Some (toy_frame ++ [xff; x00])) 999
    (Some toy_output) MODE_CANNY.
Proof.
  apply (@yuvSize_and_trailing_bytes_ignored toy_cv).
  vm_compute. reflexivity.
Defined.

(** ** [processFrame]: what a call leaves of the processor *)

Lemma keeps_ret {A} (a : A) : keeps (ret a).
Proof. intros p. apply agree_refl. Qed.

Lemma keeps_bind {A B} (c : M A) (k : A -> M B) :
  keeps c -> (forall a, keeps (k a)) -> keeps (bind c k).
Proof.
  intros Hc Hk p. unfold bind. specialize (Hc p).
  destruct (c p) as [a p1 | p1 |]; auto.
  specialize (Hk a p1). destruct (k a p1); auto; eapply agree_trans; eauto.
Qed.

(** An argument read off the processor at the time of the call. *)
Lemma keeps_at {A X} (f : X -> M A) (g : Processor -> X) :
  (forall x, keeps (f x)) -> keeps (fun p => f (g p) p).
Proof. intros H p. apply (H (g p) p). Qed.

Lemma agree_setMat (r : MatRef) (m : Mat) (p : Processor) :
  r <> YuvMat -> agree p (setMat r m p).
Proof.
  intros H. destruct r; try congruence; unfold agree; repeat split.
Qed.

Lemma keeps_memcpy_from_mat (dst : list byte) (src : MatRef) (n : Z) :
  keeps (memcpy_from_mat dst src n).
Proof.
  intros p. unfold memcpy_from_mat.
  destruct (memcpy dst (data (getMat src p)) n); auto. apply agree_refl.
Qed.

Lemma keeps_load (yuv : list byte) :
  keeps (fun p => memcpy_to_mat YuvMat yuv (yuvBytes p) p).
Proof.
  intros p. unfold memcpy_to_mat. simpl.
  destruct (memcpy (data (yuvMat p)) yuv (yuvBytes p)) as [d |] eqn:E; auto.
  unfold agree. simpl. repeat split.
  - symmetry. eapply memcpy_length; eauto.
  - symmetry. eapply memcpy_tail; eauto.
Qed.

Ltac fields :=
  unfold with_data;
  cbn [frameWidth frameHeight cannyLowThreshold cannyHighThreshold yuvMat
       rgbaMat grayMat edgesMat tempMat initialized getMat setMat
       rows cols mtype data result_of ret].

Ltac library_call :=
  match goal with
  | |- context [cv_cvtColor ?c ?m] => destruct (cv_cvtColor c m); fields
  | |- context [cv_GaussianBlur ?m ?k ?s] =>
      destruct (cv_GaussianBlur m k s); fields
  | |- context [cv_Canny ?m ?l ?h ?a] => destruct (cv_Canny m l h a); fields
  end.

Section Preservation.

Context {cv : OpenCV}.

Lemma keeps_cvtColor (src dst : MatRef) (code : ColorCode) :
  dst <> YuvMat -> keeps (cvtColor src dst code).
Proof.
  intros H p. unfold cvtColor. destruct (cv_cvtColor code (getMat src p)).
  - apply agree_setMat; assumption.
  - apply agree_refl.
Qed.

Lemma keeps_GaussianBlur (src dst : MatRef) (ksize : Z * Z) (sigmaX : float) :
  dst <> YuvMat -> keeps (GaussianBlur src dst ksize sigmaX).
Proof.
  intros H p. unfold GaussianBlur.
  destruct (cv_GaussianBlur (getMat src p) ksize sigmaX).
  - apply agree_setMat; assumption.
  - apply agree_refl.
Qed.

Lemma keeps_Canny (src dst : MatRef) (low high : float) (aperture : Z) :
  dst <> YuvMat -> keeps (Canny src dst low high aperture).
Proof.
  intros H p. unfold Canny.
  destruct (cv_Canny (getMat src p) low high aperture).
  - apply agree_setMat; assumption.
  - apply agree_refl.
Qed.

Lemma keeps_processFrame_try (yuv out : list byte) (mode : Z) :
  keeps (processFrame_try yuv out mode).
Proof.
  unfold processFrame_try, yuvToRgba, applyGrayscale, applyCanny.
  repeat first
    [ apply keeps_bind; [| intros ?]
    | apply keeps_ret
    | apply keeps_load
    | apply keeps_cvtColor; discriminate
    | apply keeps_GaussianBlur; discriminate
    | apply (keeps_at (fun n => memcpy_from_mat _ _ n)); intros ?;
      apply keeps_memcpy_from_mat
    | apply (keeps_at (fun th => Canny _ _ (fst th) (snd th) _)
               (fun p => (cannyLowThreshold p, cannyHighThreshold p)));
      intros ?; apply keeps_Canny; discriminate
    | match goal with |- keeps (if ?b then _ else _) => destruct b end ].
Qed.

(** Whatever it returns, a call leaves a processor that agrees with the one
    it was made on. *)
Lemma processFrame_agree (p : Processor) (yuvData : option (list byte))
      (yuvSize : Z) (outputRgba : option (list byte)) (mode : Z)
      (b : bool) (p' : Processor) (out' : option (list byte))
      (l : list log_msg) :
  processFrame p yuvData yuvSize outputRgba mode = Returns b p' out' l ->
  agree p p'.
Proof.
  unfold processFrame. destruct (negb (initialized p)).
  - intros H; inversion H; apply agree_refl.
  - destruct yuvData as [yuv |]; [destruct outputRgba as [o |] |];
      try (intros H; inversion H; apply agree_refl).
    pose proof (keeps_processFrame_try yuv o mode p) as K.
    destruct (processFrame_try yuv o mode p) as [[[b0 o0] l0] p0 | p0 |];
      intros H; inversion H; subst; assumption.
Qed.

(** The [try] block ends the same way on two processors that agree: every
    buffer it reads was written earlier in the same call. *)
Lemma processFrame_try_agree (p q : Processor) (yuv out : list byte) (mode : Z) :
  agree p q ->
  result_of (processFrame_try yuv out mode p) =
  result_of (processFrame_try yuv out mode q).
Proof.
  intros (S & R & C & T & L & K).
  unfold yuvBytes in K.
  destruct p as [w h lo hi [yr yc yt yd] rg gr ed tm ini].
  destruct q as [w' h' lo' hi' [yr' yc' yt' yd'] rg' gr' ed' tm' ini'].
  unfold settings in S. cbn in S, R, C, T, L.
  inversion S; subst; clear S. cbn [frameWidth frameHeight yuvMat data] in K.
  unfold processFrame_try, yuvToRgba, applyGrayscale, applyCanny, bind,
    memcpy_to_mat, memcpy_from_mat, cvtColor, GaussianBlur, Canny,
    yuvBytes, rgbaBytes.
  fields.
  rewrite (memcpy_dst_cong yd yd' yuv _ L K).
  destruct (memcpy yd' yuv _); fields; [| reflexivity].
  library_call; [| reflexivity].
  destruct (mode =? MODE_RAW); fields.
  { destruct (memcpy out _ _); reflexivity. }
  destruct (mode =? MODE_GRAYSCALE); fields.
  { repeat (library_call; [| reflexivity]).
    destruct (memcpy out _ _); reflexivity. }
  destruct (mode =? MODE_CANNY); fields; [| reflexivity].
  repeat (library_call; [| reflexivity]).
  destruct (memcpy out _ _); reflexivity.
Qed.

Lemma processFrame_observe_agree (p q : Processor)
      (yuvData : option (list byte)) (yuvSize : Z)
      (outputRgba : option (list byte)) (mode : Z) :
  agree p q ->
  observe (processFrame p yuvData yuvSize outputRgba mode) =
  observe (processFrame q yuvData yuvSize outputRgba mode).
Proof.
  intros A. pose proof A as (S & _).
  assert (I : initialized p = initialized q).
  { unfold settings in S. inversion S. reflexivity. }
  unfold processFrame. rewrite <- I.
  destruct (negb (initialized p)); [reflexivity |].
  destruct yuvData as [yuv |]; [destruct outputRgba as [o |] |];
    try reflexivity.
  pose proof (processFrame_try_agree p q yuv o mode A) as E.
  destruct (processFrame_try yuv o mode p) as [[[b1 o1] l1] p1 | p1 |];
    destruct (processFrame_try yuv o mode q) as [[[b2 o2] l2] q1 | q1 |];
    simpl in E; try discriminate; try reflexivity.
  inversion E. reflexivity.
Qed.

(** Processors that agree answer every series of calls alike. *)
Lemma run_agree (calls : list call) :
  forall p q : Processor, agree p q -> run p calls = run q calls.
Proof.
  induction calls as [| c rest IH]; intros p q A; [reflexivity |].
  simpl.
  pose proof (processFrame_observe_agree p q (call_yuvData c) (call_yuvSize c)
                (call_outputRgba c) (call_mode c) A) as O.
  destruct (processFrame p (call_yuvData c) (call_yuvSize c)
              (call_outputRgba c) (call_mode c)) as [b1 p1 o1 l1 |] eqn:E1;
    destruct (processFrame q (call_yuvData c) (call_yuvSize c)
                (call_outputRgba c) (call_mode c)) as [b2 q1 o2 l2 |] eqn:E2;
    simpl in O; try discriminate; [| reflexivity].
  inversion O; subst. f_equal. apply IH.
  apply processFrame_agree in E1. apply processFrame_agree in E2.
  eapply agree_trans; [apply agree_sym; exact E1 |].
  eapply agree_trans; [exact A | exact E2].
Qed.

(** C2: a [processFrame] call that returns false leaves width, height, both
    thresholds and the flag as they were, so an initialized processor stays
    initialized; and every later series of calls gets, from the processor the
    failed call left, the answers (return value, output block, log lines) it
    would have got had the failed call not been made. *)
Theorem failed_processFrame_keeps_processor (p : Processor)
        (yuvData : option (list byte)) (yuvSize : Z)
        (outputRgba : option (list byte)) (mode : Z)
        (p' : Processor) (out' : option (list byte)) (l : list log_msg) :
  processFrame p yuvData yuvSize outputRgba mode = Returns false p' out' l ->
  frameWidth p' = frameWidth p /\
  frameHeight p' = frameHeight p /\
  cannyLowThreshold p' = cannyLowThreshold p /\
  cannyHighThreshold p' = cannyHighThreshold p /\
  initialized p' = initialized p /\
  forall calls : list call, run p' calls = run p calls.
Proof.
  intros H. apply processFrame_agree in H.
  pose proof H as (S & _). unfold settings in S. inversion S.
  repeat split; try reflexivity.
  intros calls. apply run_agree. apply agree_sym. exact H.
Qed.

End Preservation.

Lemma failed_processFrame_keeps_processor_witness :
  settings toy_after_unknown_mode = settings toy_processor /\
  @run toy_cv toy_after_unknown_mode
    [mkCall (Some toy_frame) 6 (Some toy_output) MODE_CANNY;
     mkCall None 0 (Some toy_output) MODE_RAW]
  = @run toy_cv toy_processor
      [mkCall (Some toy_frame) 6 (Some toy_output) MODE_CANNY;
       mkCall None 0 (Some toy_output) MODE_RAW].
Proof.
  destruct (@failed_processFrame_keeps_processor toy_cv toy_processor
              (Some toy_frame) 6 (Some toy_output) 7
              toy_after_unknown_mode (Some toy_output) [LOGE_unknown_mode 7])
    as (W & H & Lo & Hi & I & R).
  - vm_compute. reflexivity.
  - split.
    + unfold settings. rewrite W, H, Lo, Hi, I. reflexivity.
    + apply R.
Defined.

(** ** Complements on the dispatch *)

Section Complements.

Context {cv : OpenCV}.

(** With a mode outside 0, 1, 2 no call succeeds, and whichever check or
    step ends it, the caller's block and the luma, edge and scratch buffers
    are as before. *)
Lemma unknown_mode_never_succeeds (p : Processor)
      (yuvData : option (list byte)) (yuvSize : Z)
      (outputRgba : option (list byte)) (mode : Z) :
  mode <> MODE_RAW -> mode <> MODE_GRAYSCALE -> mode <> MODE_CANNY ->
  match processFrame p yuvData yuvSize outputRgba mode with
  | Returns b p' out' _ =>
      b = false /\ out' = outputRgba /\ grayMat p' = grayMat p /\
      edgesMat p' = edgesMat p /\ tempMat p' = tempMat p
  | Undefined => True
  end.
Proof.
  intros H0 H1 H2. apply Z.eqb_neq in H0, H1, H2.
  unfold processFrame. destruct (negb (initialized p)); [repeat split |].
  destruct yuvData as [yuv |]; [destruct outputRgba as [o |] |];
    try (repeat split; fail).
  unfold processFrame_try. rewrite H0, H1, H2.
  unfold yuvToRgba, bind, memcpy_to_mat, cvtColor, ret. fields.
  destruct (memcpy (data (yuvMat p)) yuv (yuvBytes p)); [| exact I].
  library_call; repeat split.
Qed.

(** X11: in edge mode a stage of the chain that raises ends the call with the
    "exception" report and the caller's block as it was. *)
Lemma edge_mode_chain_throws (p : Processor) (yuv : list byte) (yuvSize : Z)
      (out : list byte) (converted : Mat) :
  initialized p = true ->
  yuvBytes p <= Z.of_nat (length yuv) ->
  yuvBytes p <= Z.of_nat (length (data (yuvMat p))) ->
  cv_cvtColor COLOR_YUV2RGBA_NV21 (loaded p yuv) = Some converted ->
  edge_chain_spec (cannyLowThreshold p) (cannyHighThreshold p) converted
  = None ->
  observe (processFrame p (Some yuv) yuvSize (Some out) MODE_CANNY) =
  Some (false, Some out, [LOGE_opencv_exception]).
Proof.
  intros Hi Hs Hd Hc Hchain.
  unfold processFrame, processFrame_try. rewrite Hi. simpl negb. cbv iota.
  unfold bind at 1. rewrite (yuvToRgba_converts p yuv converted) by assumption.
  change (MODE_CANNY =? MODE_RAW) with false.
  change (MODE_CANNY =? MODE_GRAYSCALE) with false.
  change (MODE_CANNY =? MODE_CANNY) with true. cbv iota.
  unfold edge_chain_spec in Hchain.
  unfold applyCanny, bind, cvtColor, GaussianBlur, Canny, memcpy_from_mat, ret.
  fields.
  destruct (cv_cvtColor COLOR_RGBA2GRAY converted) as [luma |];
    [| reflexivity]. fields.
  destruct (cv_GaussianBlur luma (5, 5) 1.5%float) as [sm |];
    [| reflexivity]. fields.
  destruct (cv_Canny sm (cannyLowThreshold p) (cannyHighThreshold p) 3)
    as [ed |]; [| reflexivity]. fields.
  destruct (cv_cvtColor COLOR_GRAY2RGBA ed) as [sc |];
    [discriminate | reflexivity].
Qed.

(** X14: for an even height, and a heap that has the five blocks, the source
    buffer that [init] allocates has exactly the bytes of one planar frame,
    the number every call copies into it. *)
Lemma source_buffer_holds_even_frames (junk : Allocator)
      (width height : Z) :
  0 < width -> 0 < height -> height mod 2 = 0 ->
  width * height * 3 < 2 ^ 31 ->
  granted junk (self OpenCVProcessor) width height = true ->
  let p := self (init junk (self OpenCVProcessor) width height) in
  Z.of_nat (length (data (yuvMat p))) = yuvBytes p.
Proof.
  intros Hw Hh He Hb G p.
  assert (Hd : height = 2 * (height / 2)).
  { pose proof (Z.div_mod height 2). lia. }
  assert (0 < height / 2) by lia.
  assert (Hr : height + height / 2 < 2 ^ 31) by nia.
  destruct (init_succeeds junk (self OpenCVProcessor) width height
              Hw Hh Hr G)
    as (yuv & rgba & gray & edges & temp & E & (_ & _ & _ & L) & _).
  subst p. rewrite E. cbn [self].
  rewrite yuvBytes_exact; cbn [frameWidth frameHeight yuvMat]; try lia.
  rewrite L. cbn [elemSize].
  assert (X : width * height * 3 = (width * (height / 2) * 3) * 2) by lia.
  rewrite X, Z.div_mul by lia. lia.
Qed.

End Complements.

(** ** What the edge map looks like, given the library's contract *)

Section LibraryLaws.

Context {cv : OpenCV}.

(** The edge extractor marks a pixel with 255 and leaves the others 0. *)
Hypothesis Canny_binary :
  forall m low high aperture e,
    cv_Canny m low high aperture = Some e ->
    Forall (fun b => b = x00 \/ b = xff) (data e).

(** Grey to RGBA repeats the intensity in the three colour channels and sets
    alpha to 255. *)
Hypothesis GRAY2RGBA_expands :
  forall m t,
    cv_cvtColor COLOR_GRAY2RGBA m = Some t ->
    data t = flat_map gray_pixel (data m).

(** Under that contract the scratch buffer of the edge chain is a row of
    opaque pixels, each black or white. *)
Lemma edge_chain_black_and_white (low high : float)
      (converted smoothed edges scratch : Mat) :
  edge_chain_spec low high converted = Some (smoothed, edges, scratch) ->
  data scratch = flat_map gray_pixel (data edges) /\
  Forall (fun g => gray_pixel g = [x00; x00; x00; xff] \/
                   gray_pixel g = [xff; xff; xff; xff]) (data edges).
Proof.
  unfold edge_chain_spec. intros H.
  destruct (cv_cvtColor COLOR_RGBA2GRAY converted) as [luma |];
    [| discriminate].
  destruct (cv_GaussianBlur luma (5, 5) 1.5%float) as [sm |];
    [| discriminate].
  destruct (cv_Canny sm low high 3) as [ed |] eqn:E3; [| discriminate].
  destruct (cv_cvtColor COLOR_GRAY2RGBA ed) as [sc |] eqn:E4;
    [| discriminate].
  inversion H; subst. split.
  - apply GRAY2RGBA_expands. exact E4.
  - apply Canny_binary in E3.
    eapply Forall_impl; [| exact E3].
    intros g [-> | ->]; [left | right]; reflexivity.
Qed.

End LibraryLaws.

(** The executable instance meets the contract. *)
Lemma toy_cv_meets_contract :
  (forall m low high aperture e,
      @cv_Canny toy_cv m low high aperture = Some e ->
      Forall (fun b => b = x00 \/ b = xff) (data e)) /\
  (forall m t,
      @cv_cvtColor toy_cv COLOR_GRAY2RGBA m = Some t ->
      data t = flat_map gray_pixel (data m)).
Proof.
  split.
  - intros m low high aperture e. simpl. unfold toy_Canny.
    destruct (mtype m); [| discriminate].
    intros H. inversion H. simpl.
    apply Forall_forall. intros b Hb. apply in_map_iff in Hb.
    destruct Hb as (x & <- & _).
    destruct (PrimFloat.ltb high (byte_to_float x)); [right | left];
      reflexivity.
  - intros m t. simpl. unfold toy_cvtColor.
    destruct (mtype m); [| discriminate].
    intros H. inversion H. reflexivity.
Qed.

(** * Further properties of the processor and the bridge *)

(** ** How a call can end *)
Lemma memcpy_short_dst (dst src : list byte) (n : Z) :
  Z.of_nat (length dst) < n -> memcpy dst src n = None.
Proof.
  intros H. unfold memcpy. apply Z.leb_gt in H. rewrite H.
  rewrite andb_false_r. reflexivity.
Qed.

Ltac mode_cases :=
  match goal with
  | |- context [?m =? MODE_RAW] =>
      let E := fresh "Eraw" in destruct (m =? MODE_RAW) eqn:E;
      [apply Z.eqb_eq in E | apply Z.eqb_neq in E]
  | |- context [?m =? MODE_GRAYSCALE] =>
      let E := fresh "Egray" in destruct (m =? MODE_GRAYSCALE) eqn:E;
      [apply Z.eqb_eq in E | apply Z.eqb_neq in E]
  | |- context [?m =? MODE_CANNY] =>
      let E := fresh "Ecanny" in destruct (m =? MODE_CANNY) eqn:E;
      [apply Z.eqb_eq in E | apply Z.eqb_neq in E]
  end.

Ltac library_call_eqn :=
  match goal with
  | |- context [cv_cvtColor ?c ?m] =>
      let E := fresh "Ecv" in destruct (cv_cvtColor c m) eqn:E; fields
  | |- context [cv_GaussianBlur ?m ?k ?s] =>
      let E := fresh "Ecv" in destruct (cv_GaussianBlur m k s) eqn:E; fields
  | |- context [cv_Canny ?m ?l ?h ?a] =>
      let E := fresh "Ecv" in destruct (cv_Canny m l h a) eqn:E; fields
  end.

Ltac copy_out :=
  match goal with
  | |- context [memcpy ?d ?s ?n] =>
      let E := fresh "Ecopy" in destruct (memcpy d s n) eqn:E; fields
  end.

Section TryBlock.
Context {cv : OpenCV}.

(** How the [try] block can end, read off its branches. *)
Lemma processFrame_try_cases (yuv o : list byte) (mode : Z) (p : Processor) :
  match processFrame_try yuv o mode p with
  | Val (b, o', l) p' =>
      yuvBytes p <= Z.of_nat (length yuv) /\
      yuvBytes p <= Z.of_nat (length (data (yuvMat p))) /\
      yuvMat p' = loaded p yuv /\
      cv_cvtColor COLOR_YUV2RGBA_NV21 (loaded p yuv) = Some (rgbaMat p') /\
      ((b = true /\ l = [] /\
        (mode = MODE_RAW \/ mode = MODE_GRAYSCALE \/ mode = MODE_CANNY) /\
        memcpy o (data (if mode =? MODE_RAW then rgbaMat p' else tempMat p'))
          (rgbaBytes p) = Some o')
       \/
       (b = false /\ l = [LOGE_unknown_mode mode] /\ o' = o /\
        mode <> MODE_RAW /\ mode <> MODE_GRAYSCALE /\ mode <> MODE_CANNY))
  | Throw p' =>
      yuvBytes p <= Z.of_nat (length yuv) /\
      yuvBytes p <= Z.of_nat (length (data (yuvMat p))) /\
      yuvMat p' = loaded p yuv
  | Fault => True
  end.
Proof.
  destruct p as [w h lo hi [yr yc yt yd] rg gr ed tm ini].
  unfold processFrame_try, yuvToRgba, applyGrayscale, applyCanny, bind,
    memcpy_to_mat, memcpy_from_mat, cvtColor, GaussianBlur, Canny, loaded,
    yuvBytes, rgbaBytes.
  fields.
  destruct (memcpy yd yuv _) as [d |] eqn:Eload; fields; [| exact I].
  apply memcpy_inv in Eload. destruct Eload as (Hs & Hd & ->).
  library_call_eqn; [| auto].
  mode_cases.
  { copy_out; [| exact I]. rewrite Eraw. simpl. repeat split; auto. left. repeat split; auto. }
  mode_cases.
  { repeat (library_call_eqn; [| auto]). copy_out; [| exact I].
    rewrite Egray. simpl. repeat split; auto. left. repeat split; auto. }
  mode_cases.
  { repeat (library_call_eqn; [| auto]). copy_out; [| exact I].
    rewrite Ecanny. simpl. repeat split; auto. left. repeat split; auto. }
  repeat split; auto. right. repeat split; auto.
Qed.

(** Which buffers a mode leaves alone, however the [try] block ends. *)
Lemma processFrame_try_frame (yuv o : list byte) (mode : Z) (p : Processor) :
  let untouched p' :=
    settings p' = settings p /\
    rows (yuvMat p') = rows (yuvMat p) /\
    cols (yuvMat p') = cols (yuvMat p) /\
    mtype (yuvMat p') = mtype (yuvMat p) /\
    (mode <> MODE_CANNY -> edgesMat p' = edgesMat p) /\
    (mode <> MODE_GRAYSCALE -> mode <> MODE_CANNY ->
     grayMat p' = grayMat p /\ tempMat p' = tempMat p) in
  match processFrame_try yuv o mode p with
  | Val _ p' => untouched p'
  | Throw p' => untouched p'
  | Fault => True
  end.
Proof.
  destruct p as [w h lo hi [yr yc yt yd] rg gr ed tm ini].
  unfold processFrame_try, yuvToRgba, applyGrayscale, applyCanny, bind,
    memcpy_to_mat, memcpy_from_mat, cvtColor, GaussianBlur, Canny, settings.
  fields. cbv zeta.
  destruct (memcpy yd yuv _) as [d |]; fields; [| exact I].
  library_call_eqn; [| repeat split; auto].
  mode_cases.
  { copy_out; [| exact I]. repeat split; auto. }
  mode_cases.
  { repeat (library_call_eqn; [| repeat split; auto; congruence]).
    copy_out; [| exact I]. repeat split; auto; congruence. }
  mode_cases.
  { repeat (library_call_eqn; [| repeat split; auto; congruence]).
    copy_out; [| exact I]. repeat split; auto; congruence. }
  repeat split; auto.
Qed.

End TryBlock.

Lemma memcpy_prefix (dst src d : list byte) (n : Z) :
  memcpy dst src n = Some d ->
  firstn (Z.to_nat n) d = firstn (Z.to_nat n) src.
Proof.
  intros H. apply memcpy_inv in H. destruct H as (Hs & Hd & ->).
  rewrite firstn_app, firstn_firstn, Nat.min_id, length_firstn.
  replace (Z.to_nat n - Nat.min (Z.to_nat n) (length src))%nat with 0%nat by lia.
  simpl. apply app_nil_r.
Qed.

Section Calls.
Context {cv : OpenCV}.

(** The ways a call can return, read off the guards and the [try] block. *)
Lemma processFrame_cases (p : Processor) (yuvData : option (list byte))
      (yuvSize : Z) (outputRgba : option (list byte)) (mode : Z)
      (b : bool) (p' : Processor) (out' : option (list byte))
      (l : list log_msg) :
  processFrame p yuvData yuvSize outputRgba mode = Returns b p' out' l ->
  (initialized p = false /\ b = false /\ p' = p /\ out' = outputRgba /\
   l = [LOGE_not_initialized])
  \/
  (initialized p = true /\ (yuvData = None \/ outputRgba = None) /\
   b = false /\ p' = p /\ out' = outputRgba /\ l = [LOGE_null_pointers])
  \/
  (initialized p = true /\
   exists yuv o, yuvData = Some yuv /\ outputRgba = Some o /\
     ((exists o', processFrame_try yuv o mode p = Val (b, o', l) p' /\
                  out' = Some o')
      \/
      (processFrame_try yuv o mode p = Throw p' /\ b = false /\
       out' = Some o /\ l = [LOGE_opencv_exception]))).
Proof.
  unfold processFrame. destruct (initialized p); simpl.
  2:{ intros H. inversion H. left. repeat split. }
  destruct yuvData as [yuv |].
  2:{ intros H. inversion H. right. left. repeat split. left. reflexivity. }
  destruct outputRgba as [o |].
  2:{ intros H. inversion H. right. left. repeat split. right. reflexivity. }
  intros H. right. right. split; [reflexivity |]. exists yuv, o.
  repeat split.
  destruct (processFrame_try yuv o mode p) as [[[b0 o0] l0] p0 | p0 |];
    inversion H; subst.
  - left. exists o0. split; reflexivity.
  - right. repeat split.
Qed.

(** X1: a call that returns, with either result, leaves width, height, both
    thresholds and the flag as they were, and neither reshapes nor resizes
    the source buffer. *)
Theorem processFrame_never_changes_settings (p : Processor)
        (yuvData : option (list byte)) (yuvSize : Z)
        (outputRgba : option (list byte)) (mode : Z)
        (b : bool) (p' : Processor) (out' : option (list byte))
        (l : list log_msg) :
  processFrame p yuvData yuvSize outputRgba mode = Returns b p' out' l ->
  frameWidth p' = frameWidth p /\
  frameHeight p' = frameHeight p /\
  cannyLowThreshold p' = cannyLowThreshold p /\
  cannyHighThreshold p' = cannyHighThreshold p /\
  initialized p' = initialized p /\
  rows (yuvMat p') = rows (yuvMat p) /\
  cols (yuvMat p') = cols (yuvMat p) /\
  mtype (yuvMat p') = mtype (yuvMat p) /\
  length (data (yuvMat p')) = length (data (yuvMat p)).
Proof.
  intros H. apply processFrame_agree in H.
  destruct H as (S & R & C & T & L & _).
  unfold settings in S. inversion S. repeat split; auto.
Qed.

(** X2: frames are processed independently: after any call that returns,
    every later series of calls gets the answers it would have got without
    that call. *)
Theorem calls_are_history_free (p : Processor)
        (yuvData : option (list byte)) (yuvSize : Z)
        (outputRgba : option (list byte)) (mode : Z)
        (b : bool) (p' : Processor) (out' : option (list byte))
        (l : list log_msg) (calls : list call) :
  processFrame p yuvData yuvSize outputRgba mode = Returns b p' out' l ->
  run p' calls = run p calls.
Proof.
  intros H. apply run_agree. apply agree_sym.
  eapply processFrame_agree. exact H.
Qed.

(** X3: the edge buffer is written in edge mode only, and the luma and
    scratch buffers in grayscale and edge mode only, whether the call
    succeeds or fails. *)
Theorem modes_leave_other_buffers (p : Processor)
        (yuvData : option (list byte)) (yuvSize : Z)
        (outputRgba : option (list byte)) (mode : Z)
        (b : bool) (p' : Processor) (out' : option (list byte))
        (l : list log_msg) :
  processFrame p yuvData yuvSize outputRgba mode = Returns b p' out' l ->
  (mode <> MODE_CANNY -> edgesMat p' = edgesMat p) /\
  (mode <> MODE_GRAYSCALE -> mode <> MODE_CANNY ->
   grayMat p' = grayMat p /\ tempMat p' = tempMat p).
Proof.
  intros H. apply processFrame_cases in H.
  destruct H as [(_ & _ & -> & _) | [(_ & _ & _ & -> & _) | (_ & yuv & o & _ & _ & H)]];
    try (split; intros; auto; fail).
  pose proof (processFrame_try_frame yuv o mode p) as F. cbv zeta in F.
  destruct H as [(o' & E & _) | (E & _)]; rewrite E in F;
    destruct F as (_ & _ & _ & _ & F1 & F2); split; assumption.
Qed.

(** X4: a call that returns false has not written to the caller's output
    block (nor invented one for a null pointer). *)
Theorem failed_call_leaves_output_block (p : Processor)
        (yuvData : option (list byte)) (yuvSize : Z)
        (outputRgba : option (list byte)) (mode : Z)
        (p' : Processor) (out' : option (list byte)) (l : list log_msg) :
  processFrame p yuvData yuvSize outputRgba mode = Returns false p' out' l ->
  out' = outputRgba.
Proof.
  intros H. apply processFrame_cases in H.
  destruct H as [(_ & _ & _ & E & _) | [(_ & _ & _ & _ & E & _) | (_ & yuv & o & _ & -> & H)]];
    try exact E.
  destruct H as [(o' & E & ->) | (_ & _ & -> & _)]; [| reflexivity].
  pose proof (processFrame_try_cases yuv o mode p) as C. rewrite E in C.
  destruct C as (_ & _ & _ & _ & [(X & _) | (_ & _ & -> & _)]);
    [discriminate | reflexivity].
Qed.

(** X5: a call returns true only on an initialized processor, with both
    pointers set, in one of the three modes and without a log line; the
    caller's block keeps its size and its bytes past [frameWidth *
    frameHeight * 4], and its first bytes are those of the buffer the mode
    ends in (converted buffer for mode 0, scratch buffer otherwise). *)
Theorem successful_call_overwrites_frame_prefix (p : Processor)
        (yuvData : option (list byte)) (yuvSize : Z)
        (outputRgba : option (list byte)) (mode : Z)
        (p' : Processor) (out' : option (list byte)) (l : list log_msg) :
  processFrame p yuvData yuvSize outputRgba mode = Returns true p' out' l ->
  initialized p = true /\ l = [] /\
  (mode = MODE_RAW \/ mode = MODE_GRAYSCALE \/ mode = MODE_CANNY) /\
  exists yuv o o',
    yuvData = Some yuv /\ outputRgba = Some o /\ out' = Some o' /\
    yuvBytes p <= Z.of_nat (length yuv) /\
    rgbaBytes p <= Z.of_nat (length o) /\
    length o' = length o /\
    skipn (Z.to_nat (rgbaBytes p)) o' = skipn (Z.to_nat (rgbaBytes p)) o /\
    firstn (Z.to_nat (rgbaBytes p)) o' =
    firstn (Z.to_nat (rgbaBytes p))
      (data (if mode =? MODE_RAW then rgbaMat p' else tempMat p')).
Proof.
  intros H. apply processFrame_cases in H.
  destruct H as [(_ & X & _) | [(_ & _ & X & _) | (Hi & yuv & o & -> & -> & H)]];
    try discriminate.
  destruct H as [(o' & E & ->) | (_ & X & _)]; [| discriminate].
  pose proof (processFrame_try_cases yuv o mode p) as C. rewrite E in C.
  destruct C as (Hs & _ & _ & _ & [(_ & -> & Hm & Hc) | (X & _)]);
    [| discriminate].
  repeat split; auto. exists yuv, o, o'. repeat split; auto.
  - apply memcpy_inv in Hc. tauto.
  - eapply memcpy_length; eauto.
  - eapply memcpy_tail; eauto.
  - eapply memcpy_prefix; eauto.
Qed.

(** X6: a call that returns true logs nothing; a call that returns false
    writes exactly one line, and the line tells which check or step ended it:
    flag false; a null pointer on an initialized processor; an unknown mode
    after a conversion that returned; or an exception, raised after the frame
    was copied into the source buffer. *)
Theorem log_line_names_the_failed_check (p : Processor)
        (yuvData : option (list byte)) (yuvSize : Z)
        (outputRgba : option (list byte)) (mode : Z)
        (b : bool) (p' : Processor) (out' : option (list byte))
        (l : list log_msg) :
  processFrame p yuvData yuvSize outputRgba mode = Returns b p' out' l ->
  (b = true /\ l = [])
  \/ (b = false /\ l = [LOGE_not_initialized] /\ initialized p = false)
  \/ (b = false /\ l = [LOGE_null_pointers] /\ initialized p = true /\
      (yuvData = None \/ outputRgba = None))
  \/ (b = false /\ l = [LOGE_unknown_mode mode] /\ initialized p = true /\
      mode <> MODE_RAW /\ mode <> MODE_GRAYSCALE /\ mode <> MODE_CANNY /\
      exists yuv, yuvData = Some yuv /\
        cv_cvtColor COLOR_YUV2RGBA_NV21 (loaded p yuv) = Some (rgbaMat p'))
  \/ (b = false /\ l = [LOGE_opencv_exception] /\ initialized p = true /\
      exists yuv, yuvData = Some yuv /\ yuvMat p' = loaded p yuv).
Proof.
  intros H. apply processFrame_cases in H.
  destruct H as [(Hi & -> & _ & _ & ->) | [(Hi & Hn & -> & _ & _ & ->) | (Hi & yuv & o & -> & -> & H)]].
  - right. left. auto.
  - right. right. left. auto.
  - pose proof (processFrame_try_cases yuv o mode p) as C.
    destruct H as [(o' & E & ->) | (E & -> & _ & ->)]; rewrite E in C.
    + destruct C as (_ & _ & _ & Hc & [(-> & -> & _) | (-> & -> & _ & H0 & H1 & H2)]).
      * left. auto.
      * right. right. right. left. repeat split; auto. exists yuv. auto.
    + destruct C as (_ & _ & Hy).
      right. right. right. right. repeat split; auto. exists yuv. auto.
Qed.

End Calls.

(** ** The stages behind a successful call *)

Lemma length_gray_pixels (l : list byte) :
  length (flat_map gray_pixel l) = (4 * length l)%nat.
Proof. induction l as [| g l IH]; simpl; lia. Qed.

Lemma nth_gray_pixels (l : list byte) (d : byte) :
  forall i : nat, (i < length l)%nat ->
    nth (4 * i) (flat_map gray_pixel l) d = nth i l d /\
    nth (4 * i + 1) (flat_map gray_pixel l) d = nth i l d /\
    nth (4 * i + 2) (flat_map gray_pixel l) d = nth i l d /\
    nth (4 * i + 3) (flat_map gray_pixel l) d = xff.
Proof.
  induction l as [| g l IH]; intros i Hi; simpl in Hi; [lia |].
  destruct i as [| i].
  - simpl. repeat split.
  - replace (4 * S i)%nat with (4 + 4 * i)%nat by lia.
    specialize (IH i ltac:(lia)). exact IH.
Qed.

Lemma Forall_firstn_of {A} (P : A -> Prop) (n : nat) (l : list A) :
  Forall P l -> Forall P (firstn n l).
Proof.
  intros H. rewrite <- (firstn_skipn n l) in H.
  apply Forall_app in H. tauto.
Qed.

Section Converse.
Context {cv : OpenCV}.

(** After a successful call the buffers hold the stages of the mode's
    chain, each computed from the one before. *)
Lemma processFrame_try_stages (yuv o : list byte) (mode : Z) (p : Processor) :
  match processFrame_try yuv o mode p with
  | Val (true, _, _) p' =>
      (mode = MODE_GRAYSCALE ->
       cv_cvtColor COLOR_RGBA2GRAY (rgbaMat p') = Some (grayMat p') /\
       cv_cvtColor COLOR_GRAY2RGBA (grayMat p') = Some (tempMat p')) /\
      (mode = MODE_CANNY ->
       (exists luma,
           cv_cvtColor COLOR_RGBA2GRAY (rgbaMat p') = Some luma /\
           cv_GaussianBlur luma (5, 5) 1.5%float = Some (grayMat p')) /\
       cv_Canny (grayMat p') (cannyLowThreshold p) (cannyHighThreshold p) 3
       = Some (edgesMat p') /\
       cv_cvtColor COLOR_GRAY2RGBA (edgesMat p') = Some (tempMat p'))
  | _ => True
  end.
Proof.
  destruct p as [w h lo hi [yr yc yt yd] rg gr ed tm ini].
  unfold processFrame_try, yuvToRgba, applyGrayscale, applyCanny, bind,
    memcpy_to_mat, memcpy_from_mat, cvtColor, GaussianBlur, Canny.
  fields.
  destruct (memcpy yd yuv _) as [d |]; fields; [| exact I].
  library_call_eqn; [| exact I].
  mode_cases.
  { copy_out; [| exact I]. split; intros X; rewrite X in Eraw; discriminate. }
  mode_cases.
  { repeat (library_call_eqn; [| exact I]). copy_out; [| exact I].
    split; [auto | intros X; rewrite X in Egray; discriminate]. }
  mode_cases; [| exact I].
  repeat (library_call_eqn; [| exact I]). copy_out; [| exact I].
  split; [intros X; congruence |]. intros _. repeat split; eauto.
Qed.

End Converse.

Section Stages.
Context {cv : OpenCV}.

(** X7: after a call that returned true the buffers are consistent with one
    another: the converted buffer is the conversion of the source buffer,
    and in grayscale and edge mode each later buffer is the library's result
    on the one before it, with the stored thresholds and aperture 3 for the
    edge map. *)
Theorem successful_call_buffers_hold_the_stages (p : Processor)
        (yuvData : option (list byte)) (yuvSize : Z)
        (outputRgba : option (list byte)) (mode : Z)
        (p' : Processor) (out' : option (list byte)) (l : list log_msg) :
  processFrame p yuvData yuvSize outputRgba mode = Returns true p' out' l ->
  (exists yuv, yuvData = Some yuv /\ yuvMat p' = loaded p yuv /\
     cv_cvtColor COLOR_YUV2RGBA_NV21 (yuvMat p') = Some (rgbaMat p')) /\
  (mode = MODE_GRAYSCALE ->
   cv_cvtColor COLOR_RGBA2GRAY (rgbaMat p') = Some (grayMat p') /\
   cv_cvtColor COLOR_GRAY2RGBA (grayMat p') = Some (tempMat p')) /\
  (mode = MODE_CANNY ->
   (exists luma,
       cv_cvtColor COLOR_RGBA2GRAY (rgbaMat p') = Some luma /\
       cv_GaussianBlur luma (5, 5) 1.5%float = Some (grayMat p')) /\
   cv_Canny (grayMat p') (cannyLowThreshold p') (cannyHighThreshold p') 3
   = Some (edgesMat p') /\
   cv_cvtColor COLOR_GRAY2RGBA (edgesMat p') = Some (tempMat p')).
Proof.
  intros H. pose proof (processFrame_agree _ _ _ _ _ _ _ _ _ H) as (S & _).
  unfold settings in S. inversion S as [[Sw Sh Sl Su Si]].
  apply processFrame_cases in H.
  destruct H as [(_ & X & _) | [(_ & _ & X & _) | (Hi & yuv & o & -> & -> & H)]];
    try discriminate.
  destruct H as [(o' & E & ->) | (_ & X & _)]; [| discriminate].
  pose proof (processFrame_try_cases yuv o mode p) as C. rewrite E in C.
  pose proof (processFrame_try_stages yuv o mode p) as G. rewrite E in G.
  destruct C as (_ & _ & Hy & Hc & _). destruct G as (G1 & G2).
  split; [| split].
  - exists yuv. rewrite Hy. auto.
  - exact G1.
  - replace (cannyLowThreshold p') with (cannyLowThreshold p) by congruence.
    replace (cannyHighThreshold p') with (cannyHighThreshold p) by congruence.
    exact G2.
Qed.

End Stages.

(** ** The other modes, the converter and [init] *)

Section Modes.
Context {cv : OpenCV}.

(** X8: in mode 0, on a frame the converter accepts, the call returns true,
    copies the first [frameWidth * frameHeight * 4] bytes of the converted
    buffer over the caller's block and touches no buffer but the source and
    converted ones. *)
Theorem raw_mode_passes_through (p : Processor)
        (yuv : list byte) (yuvSize : Z) (out : list byte) (converted : Mat) :
  initialized p = true ->
  yuvBytes p <= Z.of_nat (length yuv) ->
  yuvBytes p <= Z.of_nat (length (data (yuvMat p))) ->
  cv_cvtColor COLOR_YUV2RGBA_NV21 (loaded p yuv) = Some converted ->
  rgbaBytes p <= Z.of_nat (length (data converted)) ->
  rgbaBytes p <= Z.of_nat (length out) ->
  processFrame p (Some yuv) yuvSize (Some out) MODE_RAW =
  Returns true
    (setMat RgbaMat converted (setMat YuvMat (loaded p yuv) p))
    (Some (firstn (Z.to_nat (rgbaBytes p)) (data converted)
             ++ skipn (Z.to_nat (rgbaBytes p)) out))
    [].
Proof.
  intros Hi Hs Hd Hc Ht Ho.
  unfold processFrame, processFrame_try. rewrite Hi. simpl negb. cbv iota.
  unfold bind at 1. rewrite (yuvToRgba_converts p yuv converted) by assumption.
  change (MODE_RAW =? MODE_RAW) with true. cbv iota.
  unfold bind, memcpy_from_mat, ret. fields.
  change (rgbaBytes (setMat RgbaMat converted (setMat YuvMat (loaded p yuv) p)))
    with (rgbaBytes p).
  rewrite memcpy_Some by assumption. reflexivity.
Qed.

(** X9: in mode 1 the call reduces the converted frame to the luma buffer,
    expands the luma buffer to the scratch buffer and copies the scratch
    buffer out; the edge buffer is not touched. *)
Theorem grayscale_mode_runs_the_chain (p : Processor)
        (yuv : list byte) (yuvSize : Z) (out : list byte)
        (converted luma scratch : Mat) :
  initialized p = true ->
  yuvBytes p <= Z.of_nat (length yuv) ->
  yuvBytes p <= Z.of_nat (length (data (yuvMat p))) ->
  cv_cvtColor COLOR_YUV2RGBA_NV21 (loaded p yuv) = Some converted ->
  cv_cvtColor COLOR_RGBA2GRAY converted = Some luma ->
  cv_cvtColor COLOR_GRAY2RGBA luma = Some scratch ->
  rgbaBytes p <= Z.of_nat (length (data scratch)) ->
  rgbaBytes p <= Z.of_nat (length out) ->
  processFrame p (Some yuv) yuvSize (Some out) MODE_GRAYSCALE =
  Returns true
    {| frameWidth := frameWidth p;
       frameHeight := frameHeight p;
       cannyLowThreshold := cannyLowThreshold p;
       cannyHighThreshold := cannyHighThreshold p;
       yuvMat := loaded p yuv;
       rgbaMat := converted;
       grayMat := luma;
       edgesMat := edgesMat p;
       tempMat := scratch;
       initialized := true |}
    (Some (firstn (Z.to_nat (rgbaBytes p)) (data scratch)
             ++ skipn (Z.to_nat (rgbaBytes p)) out))
    [].
Proof.
  intros Hi Hs Hd Hc E1 E2 Ht Ho.
  unfold processFrame, processFrame_try. rewrite Hi. simpl negb. cbv iota.
  unfold bind at 1. rewrite (yuvToRgba_converts p yuv converted) by assumption.
  change (MODE_GRAYSCALE =? MODE_RAW) with false.
  change (MODE_GRAYSCALE =? MODE_GRAYSCALE) with true. cbv iota.
  unfold applyGrayscale, bind, cvtColor, memcpy_from_mat, ret. fields.
  rewrite E1. fields. rewrite E2. fields.
  change (rgbaBytes
            {| frameWidth := frameWidth p; frameHeight := frameHeight p;
               cannyLowThreshold := cannyLowThreshold p;
               cannyHighThreshold := cannyHighThreshold p;
               yuvMat := loaded p yuv; rgbaMat := converted;
               grayMat := luma; edgesMat := edgesMat p; tempMat := scratch;
               initialized := initialized p |}) with (rgbaBytes p).
  rewrite memcpy_Some by assumption. rewrite Hi. reflexivity.
Qed.

(** X10: when the colour conversion raises, the call returns false with the
    "exception" line in every mode, unknown modes included (the conversion
    comes before the dispatch); the frame stays in the source buffer and the
    caller's block is untouched. *)
Theorem converter_exception_is_reported (p : Processor)
        (yuv : list byte) (yuvSize : Z) (out : list byte) (mode : Z) :
  initialized p = true ->
  yuvBytes p <= Z.of_nat (length yuv) ->
  yuvBytes p <= Z.of_nat (length (data (yuvMat p))) ->
  cv_cvtColor COLOR_YUV2RGBA_NV21 (loaded p yuv) = None ->
  processFrame p (Some yuv) yuvSize (Some out) mode =
  Returns false (setMat YuvMat (loaded p yuv) p) (Some out)
    [LOGE_opencv_exception].
Proof.
  intros Hi Hs Hd Hc.
  unfold processFrame, processFrame_try. rewrite Hi. simpl negb. cbv iota.
  unfold bind at 1. rewrite (yuvToRgba_throws p yuv) by assumption.
  reflexivity.
Qed.

(** X12: outside edge mode the thresholds play no part: changing them
    changes neither the result, nor the output block, nor the log of a
    call. *)
Theorem thresholds_only_matter_in_edge_mode (p : Processor)
        (low high : float) (yuvData : option (list byte)) (yuvSize : Z)
        (outputRgba : option (list byte)) (mode : Z) :
  mode <> MODE_CANNY ->
  observe (processFrame (self (setCannyThresholds p low high))
             yuvData yuvSize outputRgba mode) =
  observe (processFrame p yuvData yuvSize outputRgba mode).
Proof.
  intros Hm. apply Z.eqb_neq in Hm.
  destruct p as [w h lo hi [yr yc yt yd] rg gr ed tm ini].
  unfold processFrame, setCannyThresholds. fields. cbn [self].
  destruct ini; [| reflexivity]. cbn [negb].
  destruct yuvData as [yuv |]; [| reflexivity].
  destruct outputRgba as [o |]; [| reflexivity].
  unfold processFrame_try, yuvToRgba, applyGrayscale, bind,
    memcpy_to_mat, memcpy_from_mat, cvtColor, yuvBytes, rgbaBytes.
  rewrite Hm. fields.
  destruct (memcpy yd yuv _); fields; [| reflexivity].
  library_call; [| reflexivity].
  destruct (mode =? MODE_RAW); fields.
  { destruct (memcpy o _ _); reflexivity. }
  destruct (mode =? MODE_GRAYSCALE); fields; [| reflexivity].
  repeat (library_call; [| reflexivity]).
  destruct (memcpy o _ _); reflexivity.
Qed.

(** X13: given a heap that has the five blocks, [init] accepts an odd height
    and returns true, but sizes the source buffer with [height / 2] rounded
    down; with a width of two or more the copy of [width * height * 3 / 2]
    bytes then runs past the buffer, so no later call with both pointers set
    has a defined result. *)
Theorem odd_height_overruns_source_buffer (junk : Allocator)
        (p0 : Processor) (width height : Z)
        (yuv : list byte) (yuvSize : Z) (out : list byte) (mode : Z) :
  2 <= width -> 0 < height -> height mod 2 = 1 ->
  width * height * 3 < 2 ^ 31 ->
  granted junk p0 width height = true ->
  retval (init junk p0 width height) = Returned true /\
  processFrame (self (init junk p0 width height)) (Some yuv) yuvSize
    (Some out) mode = Undefined.
Proof.
  intros Hw Hh Ho Hb G.
  assert (Hd : height = 2 * (height / 2) + 1).
  { pose proof (Z.div_mod height 2). lia. }
  assert (0 <= height / 2) by lia.
  assert (Hr : height + height / 2 < 2 ^ 31) by nia.
  destruct (init_succeeds junk p0 width height ltac:(lia) Hh Hr G)
    as (ym & rgba & gray & edges & temp & E & (_ & _ & _ & L) & _).
  rewrite E. cbn [retval self]. split; [reflexivity |].
  unfold processFrame, processFrame_try. cbn [initialized negb].
  unfold bind at 1.
  unfold yuvToRgba, bind, memcpy_to_mat. cbn [getMat yuvMat].
  rewrite memcpy_short_dst; [reflexivity |].
  rewrite yuvBytes_exact; cbn [frameWidth frameHeight]; try lia.
  rewrite L. cbn [elemSize].
  set (k := height / 2) in *.
  assert (X : width * height * 3 = (3 * width * k + width) * 2 + width) by lia.
  rewrite X.
  assert (Y : (3 * width * k + width) + width / 2
              <= ((3 * width * k + width) * 2 + width) / 2).
  { rewrite Z.div_add_l by lia. lia. }
  assert (1 <= width / 2) by (apply Z.div_le_lower_bound; lia).
  nia.
Qed.

(** X15: with positive dimensions, a row count that fits an [int] and a
    heap that has the five blocks, [init] returns true and leaves the new
    dimensions, the thresholds it found, the flag set and five buffers whose
    rows, columns, type and size follow from the two dimensions alone;
    nothing of the old dimensions, flag or buffer shapes remains. *)
Theorem init_leaves_no_residue (junk : Allocator)
        (p : Processor) (width height : Z) :
  0 < width -> 0 < height -> height + height / 2 < 2 ^ 31 ->
  granted junk p width height = true ->
  let r := self (init junk p width height) in
  retval (init junk p width height) = Returned true /\
  settings r =
  (width, height, cannyLowThreshold p, cannyHighThreshold p, true) /\
  shape (yuvMat r) (height + height / 2) width CV_8UC1 /\
  shape (rgbaMat r) height width CV_8UC4 /\
  shape (grayMat r) height width CV_8UC1 /\
  shape (edgesMat r) height width CV_8UC1 /\
  shape (tempMat r) height width CV_8UC4.
Proof.
  intros Hw Hh Hb G r.
  destruct (init_succeeds junk p width height Hw Hh Hb G)
    as (yuv & rgba & gray & edges & temp & E & S1 & S2 & S3 & S4 & S5).
  subst r. rewrite E. cbn [retval self yuvMat rgbaMat grayMat edgesMat tempMat].
  repeat split; try apply S1; try apply S2; try apply S3; try apply S4;
    try apply S5.
Qed.

End Modes.

(** ** Pixel values, given the library's contract *)

Section Contract.
Context {cv : OpenCV}.

Hypothesis Canny_binary :
  forall m low high aperture e,
    cv_Canny m low high aperture = Some e ->
    Forall (fun b => b = x00 \/ b = xff) (data e).

Hypothesis GRAY2RGBA_expands :
  forall m t,
    cv_cvtColor COLOR_GRAY2RGBA m = Some t ->
    data t = flat_map gray_pixel (data m).

(** X16: given the library's contract (binary edge map, grey expanded to
    (g, g, g, 255)), every byte a successful edge-mode call writes to the
    caller's block is 0 or 255. *)
Theorem edge_output_is_black_and_white (p : Processor)
        (yuvData : option (list byte)) (yuvSize : Z)
        (outputRgba : option (list byte))
        (p' : Processor) (out' : list byte) (l : list log_msg) :
  processFrame p yuvData yuvSize outputRgba MODE_CANNY
  = Returns true p' (Some out') l ->
  Forall (fun b => b = x00 \/ b = xff)
    (firstn (Z.to_nat (rgbaBytes p)) out').
Proof.
  intros H. apply processFrame_cases in H.
  destruct H as [(_ & X & _) | [(_ & _ & X & _) | (Hi & yuv & o & -> & -> & H)]];
    try discriminate.
  destruct H as [(o' & E & Eo) | (_ & X & _)]; [| discriminate].
  inversion Eo; subst o'.
  pose proof (processFrame_try_cases yuv o MODE_CANNY p) as C. rewrite E in C.
  pose proof (processFrame_try_stages yuv o MODE_CANNY p) as G. rewrite E in G.
  destruct C as (_ & _ & _ & _ & [(_ & _ & _ & Hc) | (X & _)]); [| discriminate].
  destruct G as (_ & G). destruct (G eq_refl) as (_ & Gc & Gt).
  change (MODE_CANNY =? MODE_RAW) with false in Hc. cbv iota in Hc.
  rewrite (memcpy_prefix _ _ _ _ Hc).
  apply Forall_firstn_of.
  rewrite (GRAY2RGBA_expands _ _ Gt).
  apply Canny_binary in Gc.
  induction Gc as [| g gs Hg _ IH]; simpl; [constructor |].
  apply Forall_cons; [exact Hg |].
  apply Forall_cons; [exact Hg |].
  apply Forall_cons; [exact Hg |].
  apply Forall_cons; [right; reflexivity | exact IH].
Qed.

(** X17: given the library's contract for the grey expansion, every pixel a
    successful grayscale call writes has three equal colour channels and
    alpha 255. *)
Theorem grayscale_output_is_achromatic (p : Processor)
        (yuvData : option (list byte)) (yuvSize : Z)
        (outputRgba : option (list byte))
        (p' : Processor) (out' : list byte) (l : list log_msg)
        (i : nat) (d : byte) :
  processFrame p yuvData yuvSize outputRgba MODE_GRAYSCALE
  = Returns true p' (Some out') l ->
  (4 * i + 3 < Z.to_nat (rgbaBytes p))%nat ->
  nth (4 * i + 1) out' d = nth (4 * i) out' d /\
  nth (4 * i + 2) out' d = nth (4 * i) out' d /\
  nth (4 * i + 3) out' d = xff.
Proof.
  intros H Hi4. apply processFrame_cases in H.
  destruct H as [(_ & X & _) | [(_ & _ & X & _) | (Hi & yuv & o & -> & -> & H)]];
    try discriminate.
  destruct H as [(o' & E & Eo) | (_ & X & _)]; [| discriminate].
  inversion Eo; subst o'.
  pose proof (processFrame_try_cases yuv o MODE_GRAYSCALE p) as C.
  rewrite E in C.
  pose proof (processFrame_try_stages yuv o MODE_GRAYSCALE p) as G.
  rewrite E in G.
  destruct C as (_ & _ & _ & _ & [(_ & _ & _ & Hc) | (X & _)]); [| discriminate].
  destruct G as (G & _). destruct (G eq_refl) as (_ & Gt).
  change (MODE_GRAYSCALE =? MODE_RAW) with false in Hc. cbv iota in Hc.
  pose proof (memcpy_inv _ _ _ _ Hc) as (Hsrc & _ & ->).
  rewrite (GRAY2RGBA_expands _ _ Gt) in *.
  set (n := Z.to_nat (rgbaBytes p)) in *.
  set (px := flat_map gray_pixel (data (grayMat p'))) in *.
  assert (Ln : length (firstn n px) = n).
  { rewrite length_firstn. lia. }
  assert (N : forall k, (k < n)%nat ->
                nth k (firstn n px ++ skipn n o) d = nth k px d).
  { intros k Hk. rewrite app_nth1 by lia.
    rewrite nth_firstn. destruct (k <? n)%nat eqn:Ek; [reflexivity |].
    apply Nat.ltb_ge in Ek. lia. }
  rewrite !N by lia.
  assert (Li : (i < length (data (grayMat p')))%nat).
  { subst px. rewrite length_gray_pixels in Hsrc. lia. }
  destruct (nth_gray_pixels (data (grayMat p')) d i Li) as (A0 & A1 & A2 & A3).
  subst px. rewrite A0, A1, A2, A3. auto.
Qed.

End Contract.

(** ** The JNI entry points *)

Lemma jvm_hands_out_contents (a b : list byte) :
  GetByteArrayElements jvm a = Some b -> b = a.
Proof. intros H. inversion H. reflexivity. Qed.

Section BridgeFacts.
Context {cv : OpenCV}.
Variable junk : Allocator.

(** X18: [nativeInit] with positive dimensions, a row count that fits an
    [int] and a heap that has the five blocks returns true and installs a
    newly constructed processor, whatever the global held: thresholds set on
    the previous processor are gone, the defaults 50 and 150 are back. *)
Theorem nativeInit_installs_fresh_processor (g_processor : option Processor)
        (width height : Z) :
  0 < width -> 0 < height -> height + height / 2 < 2 ^ 31 ->
  granted junk (self OpenCVProcessor) width height = true ->
  fst (fst (nativeInit junk g_processor width height)) = Returned true /\
  exists p,
    snd (fst (nativeInit junk g_processor width height)) = Some p /\
    p = self (init junk (self OpenCVProcessor) width height) /\
    frameWidth p = width /\ frameHeight p = height /\
    initialized p = true /\
    cannyLowThreshold p = 50%float /\ cannyHighThreshold p = 150%float.
Proof.
  intros Hw Hh Hb G. unfold nativeInit. cbv zeta.
  destruct (init_succeeds junk (self OpenCVProcessor) width height
              Hw Hh Hb G)
    as (yuv & rgba & gray & edges & temp & E & _).
  rewrite E. cbn [retval fst snd self]. split; [reflexivity |].
  eexists. repeat split.
Qed.

(** X19: [nativeInit] with a non-positive dimension returns false and leaves
    the global null, even when a working processor was installed before; the
    next [nativeProcessFrame] is refused and leaves the output array alone. *)
Theorem nativeInit_failure_drops_processor (env : JNIEnv)
        (g_processor : option Processor) (width height : Z)
        (input output : list byte) (width' height' mode : Z) :
  width <= 0 \/ height <= 0 ->
  fst (nativeInit junk g_processor width height) = (Returned false, None) /\
  nativeProcessFrame env (snd (fst (nativeInit junk g_processor width height)))
    input output width' height' mode
  = JReturns false None output [JNI_LOGE_no_processor].
Proof.
  intros H. unfold nativeInit, init.
  assert (E : (width <=? 0) || (height <=? 0) = true).
  { apply orb_true_iff. destruct H; [left | right]; apply Z.leb_le; assumption. }
  rewrite E. cbn [retval fst snd]. split; reflexivity.
Qed.

End BridgeFacts.

Section BridgeCalls.
Context {cv : OpenCV}.
Variable env : JNIEnv.

(** The runtime hands out the array's own contents. *)
Hypothesis elements_are_contents :
  forall a b, GetByteArrayElements env a = Some b -> b = a.

(** X20: whenever [nativeProcessFrame] returns false, for any of its
    reasons, the Java output array holds what it held before the call. *)
Theorem nativeProcessFrame_failure_leaves_array
        (g_processor : option Processor) (input output : list byte)
        (width height mode : Z)
        (g' : option Processor) (output' : list byte) (l : list log_msg) :
  nativeProcessFrame env g_processor input output width height mode
  = JReturns false g' output' l ->
  output' = output.
Proof.
  unfold nativeProcessFrame.
  destruct g_processor as [p |]; [| intros H; inversion H; reflexivity].
  destruct (GetByteArrayElements env input) as [inputBytes |];
    [| intros H; inversion H; reflexivity].
  destruct (GetByteArrayElements env output) as [outputBytes |] eqn:Eo;
    [| intros H; inversion H; reflexivity].
  apply elements_are_contents in Eo. subst outputBytes.
  cbv zeta.
  destruct (GetArrayLength input <? _); [intros H; inversion H; reflexivity |].
  destruct (GetArrayLength output <? _); [intros H; inversion H; reflexivity |].
  destruct (processFrame p (Some inputBytes) _ (Some output) mode)
    as [b p1 o1 l1 |] eqn:E; [| discriminate].
  destruct b; cbn [negb]; intros H; inversion H; subst.
  apply processFrame_cases in E.
  destruct E as [(_ & _ & _ & -> & _) | [(_ & _ & _ & _ & -> & _) | (_ & yuv & o & _ & Eo & E)]];
    [reflexivity | reflexivity |].
  - inversion Eo; subst o.
    destruct E as [(o' & E & ->) | (_ & _ & -> & _)]; [| reflexivity].
    pose proof (processFrame_try_cases yuv output mode p) as C. rewrite E in C.
    destruct C as (_ & _ & _ & _ & [(X & _) | (_ & _ & -> & _)]);
      [discriminate | reflexivity].
Qed.

(** X21: [nativeProcessFrame] returns true only when both arrays passed the
    size checks against the per-call dimensions and [processFrame] returned
    true; the output array then holds [processFrame]'s block and has its
    length unchanged. *)
Theorem nativeProcessFrame_success_copies_back
        (p : Processor) (input output : list byte)
        (width height mode : Z)
        (g' : option Processor) (output' : list byte) (l : list log_msg) :
  nativeProcessFrame env (Some p) input output width height mode
  = JReturns true g' output' l ->
  exists p',
    g' = Some p' /\
    processFrame p (Some input) (to_size_t (GetArrayLength input))
      (Some output) mode = Returns true p' (Some output') l /\
    length output' = length output /\
    int_div (int_mul (int_mul width height) 3) 2 <= GetArrayLength input /\
    int_mul (int_mul width height) 4 <= GetArrayLength output.
Proof.
  unfold nativeProcessFrame.
  destruct (GetByteArrayElements env input) as [inputBytes |] eqn:Ei;
    [| discriminate].
  destruct (GetByteArrayElements env output) as [outputBytes |] eqn:Eo;
    [| discriminate].
  apply elements_are_contents in Ei, Eo. subst inputBytes outputBytes.
  cbv zeta.
  destruct (GetArrayLength input <? _) eqn:Li; [discriminate |].
  destruct (GetArrayLength output <? _) eqn:Lo; [discriminate |].
  apply Z.ltb_ge in Li, Lo.
  destruct (processFrame p (Some input) _ (Some output) mode)
    as [b p1 o1 l1 |] eqn:E; [| discriminate].
  destruct b; cbn [negb]; [| discriminate].
  intros H. inversion H; subst. exists p1.
  pose proof E as E'.
  apply processFrame_cases in E.
  destruct E as [(_ & X & _) | [(_ & _ & X & _) | (_ & yuv & o & Ey & Eo & E)]];
    try discriminate.
  inversion Ey; inversion Eo; subst yuv o.
  destruct E as [(o' & E & ->) | (_ & X & _)]; [| discriminate].
  pose proof (processFrame_try_cases input output mode p) as C. rewrite E in C.
  destruct C as (_ & _ & _ & _ & [(_ & _ & _ & Hc) | (X & _)]); [| discriminate].
  repeat split; auto. eapply memcpy_length; eauto.
Qed.

(** X22: the size check of the bridge is made against the per-call width
    and height: an input array that passes it but is shorter than the
    processor's own frame reaches [processFrame], whose copy leaves the
    array. *)
Theorem nativeProcessFrame_trusts_call_dimensions
        (p : Processor) (input output : list byte) (width height mode : Z) :
  (forall a, GetByteArrayElements env a = Some a) ->
  initialized p = true ->
  int_div (int_mul (int_mul width height) 3) 2 <= GetArrayLength input ->
  int_mul (int_mul width height) 4 <= GetArrayLength output ->
  GetArrayLength input < yuvBytes p ->
  nativeProcessFrame env (Some p) input output width height mode = JUndefined.
Proof.
  intros Hpin Hi Hin Hout Hshort. unfold nativeProcessFrame.
  rewrite !Hpin. cbv zeta.
  apply Z.ltb_ge in Hin, Hout. rewrite Hin, Hout.
  rewrite processFrame_short_input; auto.
Qed.

End BridgeCalls.

Section BridgeGate.
Context {cv : OpenCV}.

(** X23: the per-call width and height are used for the two size checks and
    for nothing else: two calls that differ only in dimensions passing the
    checks have the same outcome. *)
Theorem call_dimensions_only_gate (env : JNIEnv)
        (g_processor : option Processor) (input output : list byte)
        (width1 height1 width2 height2 mode : Z) :
  int_div (int_mul (int_mul width1 height1) 3) 2 <= GetArrayLength input ->
  int_mul (int_mul width1 height1) 4 <= GetArrayLength output ->
  int_div (int_mul (int_mul width2 height2) 3) 2 <= GetArrayLength input ->
  int_mul (int_mul width2 height2) 4 <= GetArrayLength output ->
  nativeProcessFrame env g_processor input output width1 height1 mode =
  nativeProcessFrame env g_processor input output width2 height2 mode.
Proof.
  intros A1 B1 A2 B2. unfold nativeProcessFrame.
  apply Z.ltb_ge in A1, B1, A2, B2. cbv zeta.
  rewrite A1, B1, A2, B2. reflexivity.
Qed.

(** X24: [nativeRelease] always leaves the global null; the processor's
    "released" line is written once if it was initialized and not at all
    otherwise (the destructor's second [release] does nothing); afterwards a
    second [nativeRelease] only logs that it was called,
    [nativeSetCannyThresholds] is dropped with an error line and
    [nativeProcessFrame] is refused. *)
Theorem nativeRelease_clears_the_bridge (env : JNIEnv)
        (g_processor : option Processor) (low high : float)
        (input output : list byte) (width height mode : Z) :
  fst (nativeRelease g_processor) = None /\
  snd (nativeRelease g_processor) =
  match g_processor with
  | Some p =>
      if initialized p
      then [JNI_LOGI_nativeRelease_called; Processor_line LOGI_released;
            JNI_LOGI_native_released]
      else [JNI_LOGI_nativeRelease_called; JNI_LOGI_native_released]
  | None => [JNI_LOGI_nativeRelease_called]
  end /\
  nativeRelease (fst (nativeRelease g_processor))
  = (None, [JNI_LOGI_nativeRelease_called]) /\
  nativeSetCannyThresholds (fst (nativeRelease g_processor)) low high
  = (None, [JNI_LOGE_cannot_set_thresholds]) /\
  nativeProcessFrame env (fst (nativeRelease g_processor)) input output
    width height mode
  = JReturns false None output [JNI_LOGE_no_processor].
Proof.
  destruct g_processor as [p |]; cbn [nativeRelease fst snd];
    repeat split.
  unfold destroy, release. destruct (initialized p) eqn:E; cbn [self logged initialized].
  - reflexivity.
  - rewrite E. reflexivity.
Qed.

End BridgeGate.

(** ** The properties above on concrete frames *)

Lemma processFrame_never_changes_settings_witness :
  frameWidth toy_after_edge_call = frameWidth toy_processor /\
  frameHeight toy_after_edge_call = frameHeight toy_processor /\
  cannyLowThreshold toy_after_edge_call = cannyLowThreshold toy_processor /\
  cannyHighThreshold toy_after_edge_call = cannyHighThreshold toy_processor /\
  initialized toy_after_edge_call = initialized toy_processor /\
  rows (yuvMat toy_after_edge_call) = rows (yuvMat toy_processor) /\
  cols (yuvMat toy_after_edge_call) = cols (yuvMat toy_processor) /\
  mtype (yuvMat toy_after_edge_call) = mtype (yuvMat toy_processor) /\
  length (data (yuvMat toy_after_edge_call))
  = length (data (yuvMat toy_processor)).
Proof.
  apply (@processFrame_never_changes_settings toy_cv toy_processor
           (Some toy_frame) 6 (Some toy_output) MODE_CANNY true
           toy_after_edge_call (Some toy_edge_output) []).
  vm_compute. reflexivity.
Defined.

Lemma calls_are_history_free_witness :
  @run toy_cv toy_after_edge_call
    [mkCall (Some toy_frame) 6 (Some toy_output) MODE_GRAYSCALE]
  = @run toy_cv toy_processor
      [mkCall (Some toy_frame) 6 (Some toy_output) MODE_GRAYSCALE].
Proof.
  apply (@calls_are_history_free toy_cv toy_processor
           (Some toy_frame) 6 (Some toy_output) MODE_CANNY true
           toy_after_edge_call (Some toy_edge_output) []).
  vm_compute. reflexivity.
Defined.

Lemma modes_leave_other_buffers_witness :
  edgesMat toy_after_gray_call = edgesMat toy_processor.
Proof.
  refine (proj1 (@modes_leave_other_buffers toy_cv toy_processor
                   (Some toy_frame) 6 (Some toy_output) MODE_GRAYSCALE true
                   toy_after_gray_call (Some toy_gray_output) [] _) _).
  - vm_compute. reflexivity.
  - unfold MODE_GRAYSCALE, MODE_CANNY. lia.
Defined.

Lemma failed_call_leaves_output_block_witness :
  @processFrame toy_cv toy_processor (Some toy_frame) 6 (Some toy_output) 7
  = Returns false toy_after_unknown_mode (Some toy_output)
      [LOGE_unknown_mode 7] /\
  Some toy_output = Some toy_output.
Proof.
  split; [vm_compute; reflexivity |].
  apply (@failed_call_leaves_output_block toy_cv toy_processor
           (Some toy_frame) 6 (Some toy_output) 7
           toy_after_unknown_mode (Some toy_output) [LOGE_unknown_mode 7]).
  vm_compute. reflexivity.
Defined.

Lemma successful_call_overwrites_frame_prefix_witness :
  exists yuv o o',
    Some toy_frame = Some yuv /\ Some (toy_output ++ [x07; x07]) = Some o /\
    Some (toy_edge_output ++ [x07; x07]) = Some o' /\
    yuvBytes toy_processor <= Z.of_nat (length yuv) /\
    rgbaBytes toy_processor <= Z.of_nat (length o) /\
    length o' = length o /\
    skipn (Z.to_nat (rgbaBytes toy_processor)) o' =
    skipn (Z.to_nat (rgbaBytes toy_processor)) o /\
    firstn (Z.to_nat (rgbaBytes toy_processor)) o' =
    firstn (Z.to_nat (rgbaBytes toy_processor))
      (data (if MODE_CANNY =? MODE_RAW then rgbaMat toy_after_edge_call
             else tempMat toy_after_edge_call)).
Proof.
  refine (proj2 (proj2 (proj2
    (@successful_call_overwrites_frame_prefix toy_cv toy_processor
       (Some toy_frame) 6 (Some (toy_output ++ [x07; x07])) MODE_CANNY
       toy_after_edge_call (Some (toy_edge_output ++ [x07; x07])) [] _)))).
  vm_compute. reflexivity.
Defined.

Lemma log_line_names_the_failed_check_witness :
  (false = true /\ [LOGE_null_pointers] = [])
  \/ (false = false /\ [LOGE_null_pointers] = [LOGE_not_initialized] /\
      initialized toy_processor = false)
  \/ (false = false /\ [LOGE_null_pointers] = [LOGE_null_pointers] /\
      initialized toy_processor = true /\
      (@None (list byte) = None \/ Some toy_output = None))
  \/ (false = false /\ [LOGE_null_pointers] = [LOGE_unknown_mode MODE_RAW] /\
      initialized toy_processor = true /\
      MODE_RAW <> MODE_RAW /\ MODE_RAW <> MODE_GRAYSCALE /\
      MODE_RAW <> MODE_CANNY /\
      exists yuv, None = Some yuv /\
        @cv_cvtColor toy_cv COLOR_YUV2RGBA_NV21 (loaded toy_processor yuv)
        = Some (rgbaMat toy_processor))
  \/ (false = false /\ [LOGE_null_pointers] = [LOGE_opencv_exception] /\
      initialized toy_processor = true /\
      exists yuv, None = Some yuv /\
        yuvMat toy_processor = loaded toy_processor yuv).
Proof.
  apply (@log_line_names_the_failed_check toy_cv toy_processor None 0
           (Some toy_output) MODE_RAW false toy_processor (Some toy_output)
           [LOGE_null_pointers]).
  vm_compute. reflexivity.
Defined.

Lemma raw_mode_passes_through_witness :
  @processFrame toy_cv toy_processor (Some toy_frame) 6 (Some toy_output)
    MODE_RAW
  = Returns true toy_after_unknown_mode (Some (data toy_converted)) [].
Proof.
  rewrite (@raw_mode_passes_through toy_cv toy_processor toy_frame 6
             toy_output toy_converted).
  - vm_compute. reflexivity.
  - reflexivity.
  - vm_compute. discriminate.
  - vm_compute. discriminate.
  - vm_compute. reflexivity.
  - vm_compute. discriminate.
  - vm_compute. discriminate.
Defined.

Lemma grayscale_mode_runs_the_chain_witness :
  @processFrame toy_cv toy_processor (Some toy_frame) 6 (Some toy_output)
    MODE_GRAYSCALE
  = Returns true toy_after_gray_call (Some toy_gray_output) [].
Proof.
  rewrite (@grayscale_mode_runs_the_chain toy_cv toy_processor toy_frame 6
             toy_output toy_converted toy_luma toy_gray_scratch).
  - vm_compute. reflexivity.
  - reflexivity.
  - vm_compute. discriminate.
  - vm_compute. discriminate.
  - vm_compute. reflexivity.
  - vm_compute. reflexivity.
  - vm_compute. reflexivity.
  - vm_compute. discriminate.
  - vm_compute. discriminate.
Defined.

Lemma converter_exception_is_reported_witness :
  @processFrame toy_cv tiny_processor (Some [x10]) 1 (Some [x00; x00; x00; x00])
    MODE_RAW
  = Returns false (setMat YuvMat (loaded tiny_processor [x10]) tiny_processor)
      (Some [x00; x00; x00; x00]) [LOGE_opencv_exception].
Proof.
  apply (@converter_exception_is_reported toy_cv).
  - reflexivity.
  - vm_compute. discriminate.
  - vm_compute. discriminate.
  - vm_compute. reflexivity.
Defined.

Lemma thresholds_only_matter_in_edge_mode_witness :
  observe (@processFrame toy_cv
             (self (setCannyThresholds toy_processor 300%float 10%float))
             (Some toy_frame) 6 (Some toy_output) MODE_GRAYSCALE) =
  observe (@processFrame toy_cv toy_processor (Some toy_frame) 6
             (Some toy_output) MODE_GRAYSCALE).
Proof.
  apply (@thresholds_only_matter_in_edge_mode toy_cv).
  unfold MODE_GRAYSCALE, MODE_CANNY. lia.
Defined.

Lemma odd_height_overruns_source_buffer_witness :
  retval (init zero_junk (self OpenCVProcessor) 2 3) = Returned true /\
  @processFrame toy_cv (self (init zero_junk (self OpenCVProcessor) 2 3))
    (Some (repeat x80 9)) 9 (Some (repeat x00 24)) MODE_RAW = Undefined.
Proof.
  apply (@odd_height_overruns_source_buffer toy_cv zero_junk
           (self OpenCVProcessor) 2 3); try lia; reflexivity.
Defined.

Lemma init_leaves_no_residue_witness :
  let r := self (init zero_junk wide_processor 2 2) in
  retval (init zero_junk wide_processor 2 2) = Returned true /\
  settings r =
  (2, 2, cannyLowThreshold wide_processor, cannyHighThreshold wide_processor,
   true) /\
  shape (yuvMat r) (2 + 2 / 2) 2 CV_8UC1 /\
  shape (rgbaMat r) 2 2 CV_8UC4 /\
  shape (grayMat r) 2 2 CV_8UC1 /\
  shape (edgesMat r) 2 2 CV_8UC1 /\
  shape (tempMat r) 2 2 CV_8UC4.
Proof.
  apply (init_leaves_no_residue zero_junk wide_processor 2 2);
    try lia; reflexivity.
Defined.

Lemma successful_call_buffers_hold_the_stages_witness :
  @cv_Canny toy_cv (grayMat toy_after_edge_call)
    (cannyLowThreshold toy_after_edge_call)
    (cannyHighThreshold toy_after_edge_call) 3
  = Some (edgesMat toy_after_edge_call) /\
  @cv_cvtColor toy_cv COLOR_GRAY2RGBA (edgesMat toy_after_edge_call)
  = Some (tempMat toy_after_edge_call).
Proof.
  refine (proj2 (proj2 (proj2
    (@successful_call_buffers_hold_the_stages toy_cv toy_processor
       (Some toy_frame) 6 (Some toy_output) MODE_CANNY
       toy_after_edge_call (Some toy_edge_output) [] _)) eq_refl)).
  vm_compute. reflexivity.
Defined.

Lemma edge_output_is_black_and_white_witness :
  Forall (fun b => b = x00 \/ b = xff)
    (firstn (Z.to_nat (rgbaBytes toy_processor)) toy_edge_output).
Proof.
  apply (@edge_output_is_black_and_white toy_cv
           (proj1 toy_cv_meets_contract) (proj2 toy_cv_meets_contract)
           toy_processor (Some toy_frame) 6 (Some toy_output)
           toy_after_edge_call toy_edge_output []).
  vm_compute. reflexivity.
Defined.

Lemma grayscale_output_is_achromatic_witness :
  nth (4 * 1 + 1) toy_gray_output x00 = nth (4 * 1) toy_gray_output x00 /\
  nth (4 * 1 + 2) toy_gray_output x00 = nth (4 * 1) toy_gray_output x00 /\
  nth (4 * 1 + 3) toy_gray_output x00 = xff.
Proof.
  apply (@grayscale_output_is_achromatic toy_cv
           (proj2 toy_cv_meets_contract)
           toy_processor (Some toy_frame) 6 (Some toy_output)
           toy_after_gray_call toy_gray_output [] 1%nat x00).
  - vm_compute. reflexivity.
  - vm_compute. lia.
Defined.

Lemma nativeInit_installs_fresh_processor_witness :
  fst (fst (nativeInit zero_junk
              (Some (self (setCannyThresholds wide_processor 1%float 2%float)))
              2 2)) = Returned true /\
  exists p,
    snd (fst (nativeInit zero_junk
                (Some (self (setCannyThresholds wide_processor 1%float 2%float)))
                2 2)) = Some p /\
    p = self (init zero_junk (self OpenCVProcessor) 2 2) /\
    frameWidth p = 2 /\ frameHeight p = 2 /\
    initialized p = true /\
    cannyLowThreshold p = 50%float /\ cannyHighThreshold p = 150%float.
Proof.
  apply (nativeInit_installs_fresh_processor zero_junk); try lia; reflexivity.
Defined.

Lemma nativeInit_failure_drops_processor_witness :
  fst (nativeInit zero_junk (Some toy_processor) 0 10)
  = (Returned false, None) /\
  @nativeProcessFrame toy_cv jvm
    (snd (fst (nativeInit zero_junk (Some toy_processor) 0 10)))
    toy_frame toy_output 2 2 MODE_RAW
  = JReturns false None toy_output [JNI_LOGE_no_processor].
Proof.
  apply (@nativeInit_failure_drops_processor toy_cv zero_junk jvm).
  left. lia.
Defined.

Lemma nativeProcessFrame_failure_leaves_array_witness :
  @nativeProcessFrame toy_cv jvm (Some toy_processor) toy_frame toy_output
    2 2 7
  = JReturns false (Some toy_after_unknown_mode) toy_output
      [LOGE_unknown_mode 7; JNI_LOGE_processing_failed] /\
  toy_output = toy_output.
Proof.
  split; [vm_compute; reflexivity |].
  apply (@nativeProcessFrame_failure_leaves_array toy_cv jvm
           jvm_hands_out_contents
           (Some toy_processor) toy_frame toy_output 2 2 7
           (Some toy_after_unknown_mode) toy_output
           [LOGE_unknown_mode 7; JNI_LOGE_processing_failed]).
  vm_compute. reflexivity.
Defined.

Lemma nativeProcessFrame_success_copies_back_witness :
  exists p',
    Some toy_after_edge_call = Some p' /\
    @processFrame toy_cv toy_processor (Some toy_frame)
      (to_size_t (GetArrayLength toy_frame)) (Some toy_output) MODE_CANNY
    = Returns true p' (Some toy_edge_output) [] /\
    length toy_edge_output = length toy_output /\
    int_div (int_mul (int_mul 2 2) 3) 2 <= GetArrayLength toy_frame /\
    int_mul (int_mul 2 2) 4 <= GetArrayLength toy_output.
Proof.
  apply (@nativeProcessFrame_success_copies_back toy_cv jvm
           jvm_hands_out_contents).
  vm_compute. reflexivity.
Defined.

Lemma nativeProcessFrame_trusts_call_dimensions_witness :
  @nativeProcessFrame toy_cv jvm (Some wide_processor) toy_frame toy_output
    2 2 MODE_RAW = JUndefined.
Proof.
  apply (@nativeProcessFrame_trusts_call_dimensions toy_cv jvm).
  - intros a. reflexivity.
  - reflexivity.
  - vm_compute. discriminate.
  - vm_compute. discriminate.
  - vm_compute. reflexivity.
Defined.

Lemma call_dimensions_only_gate_witness :
  @nativeProcessFrame toy_cv jvm (Some toy_processor) toy_frame toy_output
    2 2 MODE_CANNY =
  @nativeProcessFrame toy_cv jvm (Some toy_processor) toy_frame toy_output
    1 4 MODE_CANNY.
Proof.
  apply (@call_dimensions_only_gate toy_cv jvm); vm_compute; discriminate.
Defined.

Lemma source_buffer_holds_even_frames_witness :
  Z.of_nat (length (data (yuvMat toy_processor))) = yuvBytes toy_processor.
Proof.
  apply (source_buffer_holds_even_frames zero_junk 2 2); try lia; reflexivity.
Defined.

Lemma edge_mode_chain_throws_witness :
  observe (@processFrame no_canny_cv toy_processor (Some toy_frame) 6
             (Some toy_output) MODE_CANNY)
  = Some (false, Some toy_output, [LOGE_opencv_exception]).
Proof.
  apply (@edge_mode_chain_throws no_canny_cv toy_processor toy_frame 6
           toy_output toy_converted).
  - reflexivity.
  - vm_compute. discriminate.
  - vm_compute. discriminate.
  - vm_compute. reflexivity.
  - vm_compute. reflexivity.
Defined.
